(** * Book recommender: the model store, its loader and the recommender

    A shallow embedding of [app.py]: the four process-wide globals
    ([popular_df], [pt], [scores], [all_books]), [load_model_components]
    and [recommend].

    Conventions of the embedding.
    - Python values are dynamically typed; the globals therefore hold a
      [PyVal], and attribute access or indexing on a value of the wrong
      shape raises, as in Python.
    - Exceptions are values of [exn]; a computation that may raise returns
      a [result].  Assignments made to the globals before an exception
      stay in force, so the loader threads the store explicitly.
    - A pandas DataFrame is kept row-wise: its column names and, per row,
      the row label with the record of its cells.
    - A finite float is represented by its exact rational value ([Q]).
      Similarity scores are only ever compared; a float that the code
      computes is rounded as an IEEE 754 double.
    - [Series.sample] draws from the process-wide random generator; the
      draws appear as an explicit argument [rng]. *)

From Stdlib Require Import QArith Ascii DecimalString Sorted SpecFloat.
From stdpp Require Import base option list sorting gmap strings.

Local Open Scope string_scope.
Local Open Scope nat_scope.

(** ** Exceptions and the error monad *)

Inductive exn : Type :=
  | KeyError
  | IndexError
  | AttributeError
  | TypeError
  | ValueError
  | FileNotFoundError
  | UnpicklingError.

Inductive result (A : Type) : Type :=
  | Ok (a : A)
  | Raise (e : exn).

Arguments Ok {A} a.
Arguments Raise {A} e.

Definition result_bind {A B : Type} (f : A → result B) (m : result A) : result B :=
  match m with
  | Ok a => f a
  | Raise e => Raise e
  end.

#[export] Instance result_ret : MRet result := λ A a, Ok a.
#[export] Instance result_mbind : MBind result := λ A B f m, result_bind f m.

(** ** Python values *)

(** A scalar as found in a DataFrame cell, a row label or a returned list. *)
Inductive Cell : Type :=
  | CStr (s : string)
  | CInt (z : Z)
  | CFloat (q : Q)
  | CNaN.

#[export] Instance Q_eq_dec : EqDecision Q.
Proof. solve_decision. Defined.

#[export] Instance Cell_eq_dec : EqDecision Cell.
Proof. solve_decision. Defined.

(** Python's [==] on scalars (pandas treats missing values as one value
    when it removes duplicates). *)
Definition cell_eqb (a b : Cell) : bool :=
  match a, b with
  | CStr s, CStr t => String.eqb s t
  | CInt x, CInt y => Z.eqb x y
  | CFloat x, CFloat y => Qeq_bool x y
  | CInt x, CFloat y => Qeq_bool (inject_Z x) y
  | CFloat x, CInt y => Qeq_bool x (inject_Z y)
  | CNaN, CNaN => true
  | _, _ => false
  end.

(** A record is a dict literal: keys in insertion order. *)
Definition RowRecord : Type := list (string * Cell).

Fixpoint record_get (k : string) (r : RowRecord) : Cell :=
  match r with
  | [] => CNaN
  | (k', v) :: r' => if String.eqb k k' then v else record_get k r'
  end.

Record DataFrame : Type := mkDataFrame {
  df_columns : list string;
  df_rows : list (Cell * RowRecord)
}.

(** [pd.DataFrame()] *)
Definition empty_frame : DataFrame :=
  {| df_columns := []; df_rows := [] |}.

(** [df.empty]: some axis has length 0. *)
Definition frame_empty (df : DataFrame) : bool :=
  match df_columns df, df_rows df with
  | _ :: _, _ :: _ => false
  | _, _ => true
  end.

(** [len(df)] *)
Definition frame_len (df : DataFrame) : nat := length (df_rows df).

(** [df.index] *)
Definition frame_index (df : DataFrame) : list Cell := (df_rows df).*1.

Definition has_column (name : string) (df : DataFrame) : bool :=
  existsb (String.eqb name) (df_columns df).

(** The values of a column, one per row. *)
Definition column_values (name : string) (df : DataFrame) : list Cell :=
  map (λ row, record_get name row.2) (df_rows df).

(** Keeps the first occurrence of every element ([Series.unique], and the
    column order of a frame built from records). *)
Fixpoint unique_by {A : Type} (eqb : A → A → bool) (seen l : list A) : list A :=
  match l with
  | [] => []
  | x :: l' =>
      if existsb (eqb x) seen then unique_by eqb seen l'
      else x :: unique_by eqb (x :: seen) l'
  end.

Definition unique (l : list Cell) : list Cell := unique_by cell_eqb [] l.

Fixpoint enumerate_from {A : Type} (start : nat) (l : list A) : list (nat * A) :=
  match l with
  | [] => []
  | x :: l' => (start, x) :: enumerate_from (S start) l'
  end.

(** [enumerate(l)] *)
Definition enumerate {A : Type} (l : list A) : list (nat * A) := enumerate_from 0 l.

(** [pd.DataFrame(records)]: a default range index, the columns being the
    keys in order of first appearance. *)
Definition DataFrame_of_records (recs : list RowRecord) : DataFrame :=
  {| df_columns := unique_by String.eqb [] (concat (map (λ r : RowRecord, r.*1) recs));
     df_rows := map (λ ir : nat * RowRecord, (CInt (Z.of_nat ir.1), ir.2)) (enumerate recs) |}.

(** The objects the pickle may hold in the place of an artifact: [None], a
    DataFrame, a two-dimensional numeric array, or any other object (one
    without an [empty] attribute and not subscriptable). *)
Inductive PyVal : Type :=
  | VNone
  | VFrame (df : DataFrame)
  | VArray (m : list (list Q))
  | VOther.

(** [v.empty] *)
Definition attr_empty (v : PyVal) : result bool :=
  match v with
  | VFrame df => Ok (frame_empty df)
  | _ => Raise AttributeError
  end.

(** [v.index.tolist()] *)
Definition attr_index (v : PyVal) : result (list Cell) :=
  match v with
  | VFrame df => Ok (frame_index df)
  | _ => Raise AttributeError
  end.

(** [len(v)] *)
Definition py_len (v : PyVal) : result nat :=
  match v with
  | VFrame df => Ok (frame_len df)
  | VArray m => Ok (length m)
  | _ => Raise TypeError
  end.

(** [v[name]] for a string [name]: the column of a frame. *)
Definition getitem_col (v : PyVal) (name : string) : result (list Cell) :=
  match v with
  | VFrame df => if has_column name df then Ok (column_values name df) else Raise KeyError
  | VArray _ => Raise IndexError
  | _ => Raise TypeError
  end.

(** [v[i]] for an integer position [i]: the row of an array.  A frame
    looks an integer up among its column names, which are strings. *)
Definition getitem_row (v : PyVal) (i : nat) : result (list Q) :=
  match v with
  | VArray m => match m !! i with Some row => Ok row | None => Raise IndexError end
  | VFrame _ => Raise KeyError
  | _ => Raise TypeError
  end.

Definition is_none (v : PyVal) : bool :=
  match v with VNone => true | _ => false end.

(** [index.get_loc(name)]: the position of the label, [KeyError] when it
    is absent.  pandas returns an integer position for a label that
    occurs once (for a repeated label it returns a slice or a mask); the
    row labels of the pivot are unique, and what is proved from the
    position returned assumes that they are. *)
Fixpoint get_loc_from (start : nat) (labels : list Cell) (name : string) : result nat :=
  match labels with
  | [] => Raise KeyError
  | c :: labels' =>
      if cell_eqb c (CStr name) then Ok start else get_loc_from (S start) labels' name
  end.

Definition get_loc (labels : list Cell) (name : string) : result nat :=
  get_loc_from 0 labels name.

(** [index[i]] *)
Definition index_getitem (labels : list Cell) (i : nat) : result Cell :=
  match labels !! i with
  | Some c => Ok c
  | None => Raise IndexError
  end.

(** ** Sorting *)

Definition Qlt_bool (x y : Q) : bool :=
  match (x ?= y)%Q with Lt => true | _ => false end.

(** Stable ascending sort; like Python's, it only ever asks whether one
    key is smaller than another. *)
Fixpoint insert_by {A : Type} (key : A → Q) (x : A) (l : list A) : list A :=
  match l with
  | [] => [x]
  | y :: l' => if Qlt_bool (key y) (key x) then y :: insert_by key x l' else x :: y :: l'
  end.

Fixpoint sort_by {A : Type} (key : A → Q) (l : list A) : list A :=
  match l with
  | [] => []
  | x :: l' => insert_by key x (sort_by key l')
  end.

(** [sorted(l, key=key, reverse=reverse)]: with [reverse] the list is
    reversed, sorted stably, and reversed again. *)
Definition sorted {A : Type} (key : A → Q) (reversed : bool) (l : list A) : list A :=
  if reversed then reverse (sort_by key (reverse l)) else sort_by key l.

(** [l[lo:hi]] for [0 <= lo <= hi] *)
Definition slice {A : Type} (lo hi : nat) (l : list A) : list A :=
  take (hi - lo) (drop lo l).

(** ** Random sampling *)

(** [n] draws without replacement from [pool]: each raw draw selects one
    of the positions that are left. *)
Fixpoint draw {A : Type} (n : nat) (pool : list A) (rng : list nat) : list A :=
  match n with
  | O => []
  | S n' =>
      match pool !! (hd 0 rng `mod` length pool) with
      | Some x => x :: draw n' (delete (hd 0 rng `mod` length pool) pool) (tl rng)
      | None => []
      end
  end.

(** [Series.sample(n)] *)
Definition sample (n : nat) (col : list Cell) (rng : list nat) : result (list Cell) :=
  if decide (length col < n) then Raise ValueError else Ok (draw n col rng).

(** ** The model store *)

Record Store : Type := mkStore {
  popular_df : PyVal;
  pt : PyVal;
  scores : PyVal;
  all_books : list Cell
}.

(** The globals as the module initialises them. *)
Definition initial_store : Store :=
  {| popular_df := VFrame empty_frame;
     pt := VFrame empty_frame;
     scores := VNone;
     all_books := [] |}.

Definition set_popular_df (v : PyVal) (st : Store) : Store :=
  {| popular_df := v; pt := pt st; scores := scores st; all_books := all_books st |}.
Definition set_pt (v : PyVal) (st : Store) : Store :=
  {| popular_df := popular_df st; pt := v; scores := scores st; all_books := all_books st |}.
Definition set_scores (v : PyVal) (st : Store) : Store :=
  {| popular_df := popular_df st; pt := pt st; scores := v; all_books := all_books st |}.
Definition set_all_books (l : list Cell) (st : Store) : Store :=
  {| popular_df := popular_df st; pt := pt st; scores := scores st; all_books := l |}.

(** ** The loader *)

(** What [pickle.load] returns: a tuple or list, a dict, or a single object. *)
Inductive Pickle : Type :=
  | PSeq (items : list PyVal)
  | PDict (d : gmap string PyVal)
  | PObj (v : PyVal).

(** The outcome of opening and reading ['recommendation_system.pkl']. *)
Inductive FileRead : Type :=
  | NoFile
  | Corrupt
  | Unpickled (data : Pickle).

Definition unpickle (f : FileRead) : result Pickle :=
  match f with
  | NoFile => Raise FileNotFoundError
  | Corrupt => Raise UnpicklingError
  | Unpickled data => Ok data
  end.

Definition frame_or_empty (v : PyVal) : PyVal :=
  match v with
  | VFrame df => VFrame df
  | _ => VFrame empty_frame
  end.

(** The [if]/[elif]/[else] on the structure of the loaded data.  The first
    pattern is a sequence of at least three items. *)
Definition classify (data : Pickle) (st : Store) : Store :=
  match data with
  | PSeq (a :: b :: c :: _) =>
      set_scores c (set_pt b (set_popular_df a st))
  | PDict d =>
      let st1 := set_popular_df (default (popular_df st) (d !! "popular_df")) st in
      let st2 := set_pt (default (pt st1) (d !! "pt")) st1 in
      set_scores (default (scores st2) (d !! "scores")) st2
  | PSeq _ => set_popular_df (VFrame empty_frame) st
  | PObj v => set_popular_df (frame_or_empty v) st
  end.

(** Post-load preparation: the titles offered in the dropdown. *)
Definition derive_all_books (st : Store) : result (list Cell) :=
  e ← attr_empty (pt st);
  if negb e then attr_index (pt st)
  else col ← getitem_col (popular_df st) "Book-Title"; Ok (unique col).

(** The body of the [try] block, with the store as it stands when the
    block is left. *)
Definition load_try (f : FileRead) (st : Store) : Store * result unit :=
  match unpickle f with
  | Raise e => (st, Raise e)
  | Ok data =>
      let st1 := classify data st in
      match derive_all_books st1 with
      | Raise e => (st1, Raise e)
      | Ok books => (set_all_books books st1, Ok ())
      end
  end.

Definition str (i : nat) : string := NilEmpty.string_of_uint (Nat.to_uint i).

(** Python floats are IEEE 754 doubles: 53 bits of precision, round to
    nearest even.  [float_of_Z] is [float(z)], [float_div] the true
    division and [float_add] the sum of two doubles; [float_value] is the
    exact rational value of a finite double, which is what a [CFloat]
    cell holds. *)
Definition float_of_Z (z : Z) : spec_float := binary_normalize 53 1024 z 0 false.

Definition float_div (x y : spec_float) : spec_float := SFdiv 53 1024 x y.

Definition float_add (x y : spec_float) : spec_float := SFadd 53 1024 x y.

Definition float_value (x : spec_float) : Q :=
  match x with
  | S754_finite s m e =>
      let z := if s then Z.neg m else Z.pos m in
      match e with
      | Zneg p => Qred (z # 2 ^ p)
      | _ => inject_Z (z * 2 ^ e)
      end
  | _ => 0%Q
  end.

Definition mock_record (i : nat) : RowRecord :=
  [ ("Book-Title", CStr ("Mock Popular Book " +:+ str i));
    ("Book-Author", CStr ("Author " +:+ str i));
    ("Image-URL-M", CStr ("https://placehold.co/80x120/4f46e5/ffffff?text=Book" +:+ str i));
    ("Num-Ratings", CInt (1000 + Z.of_nat i));
    ("Avg-Rating",
     CFloat (float_value
               (float_add (float_of_Z 4)
                  (float_div (float_of_Z (Z.of_nat i)) (float_of_Z 100))))) ].

(** [range(1, 51)] *)
Definition mock_range : list nat := seq 1 50.

Definition mock_popular_df : DataFrame :=
  DataFrame_of_records (map mock_record mock_range).

(** The [except] block. *)
Definition mock_fallback (st : Store) : Store :=
  let st1 := set_popular_df (VFrame mock_popular_df) st in
  set_all_books (column_values "Book-Title" mock_popular_df) st1.

Definition load_model_components (f : FileRead) (st : Store) : Store :=
  match load_try f st with
  | (st', Ok _) => st'
  | (st', Raise _) => mock_fallback st'
  end.

(** What the loader does once the structure of the data is settled: the
    post-load preparation, or the fallback when it raises. *)
Definition settle (st1 : Store) : Store :=
  match derive_all_books st1 with
  | Ok books => set_all_books books st1
  | Raise _ => mock_fallback st1
  end.

Definition mock_titles : list Cell :=
  map (λ i, CStr ("Mock Popular Book " +:+ str i)) mock_range.

Definition mock_num_ratings : list Z :=
  map (λ i, 1000 + Z.of_nat i)%Z mock_range.

(** ** The recommender *)

Definition msg_unavailable : string :=
  "Model data unavailable. Please check backend setup.".

Definition msg_not_found (book_name : string) : string :=
  "Error: '" +:+ book_name +:+ "' not found in the trained model's index.".

Definition msg_unexpected : string :=
  "An unexpected error occurred during recommendation.".

(** The loop that turns ranked positions into titles. *)
Fixpoint titles_of (labels : list Cell) (items : list (nat * Q)) : result (list Cell) :=
  match items with
  | [] => Ok []
  | (i, _) :: items' =>
      book_title ← index_getitem labels i;
      rest ← titles_of labels items';
      Ok (book_title :: rest)
  end.

(** The positions and scores kept for a row: sorted by score, highest
    first, without the first entry, five at most. *)
Definition ranked (row : list Q) : list (nat * Q) :=
  slice 1 6 (sorted snd true (enumerate row)).

(** The body of the [try] block of [recommend]. *)
Definition recommend_try (st : Store) (book_name : string) : result (list Cell) :=
  labels ← attr_index (pt st);
  index ← get_loc labels book_name;
  row ← getitem_row (scores st) index;
  titles_of labels (ranked row).

Definition recommend (st : Store) (rng : list nat) (book_name : string) : result (list Cell) :=
  pt_empty ← attr_empty (pt st);
  if pt_empty || is_none (scores st) then
    popular_empty ← attr_empty (popular_df st);
    if (popular_empty : bool) then Ok [CStr msg_unavailable]
    else
      col ← getitem_col (popular_df st) "Book-Title";
      n ← py_len (popular_df st);
      sample (Nat.min 5 n) col rng
  else
    match recommend_try st book_name with
    | Ok recommendations => Ok recommendations
    | Raise KeyError => Ok [CStr (msg_not_found book_name)]
    | Raise _ => Ok [CStr msg_unexpected]
    end.

(** ** The routes *)

(** [df.head(n)] *)
Definition head (n : nat) (df : DataFrame) : DataFrame :=
  {| df_columns := df_columns df; df_rows := take n (df_rows df) |}.

(** [df.to_dict('records')]: one dict per row, keyed by the column names.
    A dict holds a key once, at the place where it first occurs. *)
Definition to_dict_records (df : DataFrame) : list RowRecord :=
  map (λ row : Cell * RowRecord,
         map (λ c, (c, record_get c row.2)) (unique_by String.eqb [] (df_columns df)))
    (df_rows df).

(** What [jsonify] is given: a dict with one key.  The dicts are Python
    values; the order in which [jsonify] writes their keys is not part of
    them. *)
Inductive Body : Type :=
  | TitleList (key : string) (titles : list Cell)
  | RecordList (key : string) (records : list RowRecord)
  | ErrorMessage (key : string) (msg : string).

Record Response : Type := mkResponse {
  status : nat;
  body : Body
}.

(** [GET /get_popular_books].  An exception that leaves the view makes
    the request fail with status 500; it is kept as [Raise]. *)
Definition get_popular_books_api (st : Store) : result Response :=
  match popular_df st with
  | VFrame df =>
      Ok {| status := 200;
            body := RecordList "popular_books" (to_dict_records (head 50 df)) |}
  | _ => Raise AttributeError
  end.

(** [GET /get_all_books] *)
Definition get_all_books_api (st : Store) : Response :=
  {| status := 200; body := TitleList "all_book_titles" (all_books st) |}.

(** What [request.get_json()] returns. *)
#[warnings="-register-all"]
Inductive Json : Type :=
  | JNull
  | JBool (b : bool)
  | JNum (q : Q)
  | JStr (s : string)
  | JArr (items : list Json)
  | JObj (fields : gmap string Json).

(** [bool(data)] *)
Definition truthy (data : Json) : bool :=
  match data with
  | JNull => false
  | JBool b => b
  | JNum q => negb (Qeq_bool q 0)
  | JStr s => negb (String.eqb s "")
  | JArr items => match items with [] => false | _ :: _ => true end
  | JObj fields => negb (Nat.eqb (size fields) 0)
  end.

(** [pat in s] for two strings *)
Fixpoint is_substring (pat s : string) : bool :=
  String.prefix pat s ||
  match s with
  | EmptyString => false
  | String _ s' => is_substring pat s'
  end.

Definition is_str (key : string) (x : Json) : bool :=
  match x with
  | JStr s => String.eqb s key
  | _ => false
  end.

(** [key in data] *)
Definition contains (key : string) (data : Json) : result bool :=
  match data with
  | JObj fields => Ok (bool_decide (is_Some (fields !! key)))
  | JArr items => Ok (existsb (is_str key) items)
  | JStr s => Ok (is_substring key s)
  | _ => Raise TypeError
  end.

(** [data[key]] for a string [key] *)
Definition getitem_key (data : Json) (key : string) : result Json :=
  match data with
  | JObj fields =>
      match fields !! key with
      | Some v => Ok v
      | None => Raise KeyError
      end
  | _ => Raise TypeError
  end.

Definition msg_missing : string :=
  "Missing " +:+ String "034"%char "book_name" +:+ String "034"%char " in request body.".

(** The files of the data directory and the random draws that a request
    meets are arguments.  What [recommend] does with a [book_name] that
    is not a string depends on pandas and is left open: [recommend_other]
    stands for it. *)
Section Routes.
Variable recommend_other : Store → list nat → Json → result (list Cell).

(** [POST /get_recommendations] *)
Definition get_recommendation_api (st : Store) (rng : list nat) (data : Json)
    : result Response :=
  missing ← (if negb (truthy data) then Ok true
             else found ← contains "book_name" data; Ok (negb found));
  if (missing : bool) then
    Ok {| status := 400; body := ErrorMessage "error" msg_missing |}
  else
    book_name ← getitem_key data "book_name";
    recommended_books ← match book_name with
                         | JStr s => recommend st rng s
                         | _ => recommend_other st rng book_name
                         end;
    Ok {| status := 200; body := TitleList "recommendations" recommended_books |}.

(** The JSON routes. *)
Inductive Request : Type :=
  | GetPopularBooks
  | GetAllBooks
  | PostRecommendations (data : Json).

(** One request: [startup] runs before it and loads the model, then the
    view answers from the store. *)
Definition serve (f : FileRead) (rng : list nat) (req : Request) (st : Store)
    : Store * result Response :=
  let st' := load_model_components f st in
  (st', match req with
        | GetPopularBooks => get_popular_books_api st'
        | GetAllBooks => Ok (get_all_books_api st')
        | PostRecommendations data => get_recommendation_api st' rng data
        end).
End Routes.

(** The two states of the store that [recommend] tells apart; both need
    the pivot to be a DataFrame. *)
Definition loaded (st : Store) : bool :=
  match pt st with
  | VFrame df => negb (frame_empty df) && negb (is_none (scores st))
  | _ => false
  end.

Definition degraded (st : Store) : bool :=
  match pt st with
  | VFrame df => frame_empty df || is_none (scores st)
  | _ => false
  end.

(** ** Ranking *)

(** [a] is ranked before [b]: it has the higher score, or the same score
    at an earlier position. *)
Definition outranks (a b : nat * Q) : Prop :=
  (b.2 < a.2)%Q ∨ ((a.2 == b.2)%Q ∧ a.1 < b.1).

(** ** Example data *)

(** A pivot with the given titles as row labels and two rater columns. *)
Definition pivot_of_titles (titles : list string) : DataFrame :=
  {| df_columns := ["rater 1"; "rater 2"];
     df_rows := map (λ t, (CStr t, [("rater 1", CFloat 0); ("rater 2", CFloat 0)])) titles |}.

Definition scenario_titles : list string := ["A"; "B"; "C"; "D"; "E"; "F"; "G"].

Definition scenario_row : list Q :=
  [1; 9 # 10; 2 # 10; 8 # 10; 1 # 10; 7 # 10; 5 # 100]%Q.

Definition scenario_scores : list (list Q) :=
  [ scenario_row;
    [9 # 10; 1; 3 # 10; 3 # 10; 3 # 10; 3 # 10; 3 # 10];
    [2 # 10; 3 # 10; 1; 3 # 10; 3 # 10; 3 # 10; 3 # 10];
    [8 # 10; 3 # 10; 3 # 10; 1; 3 # 10; 3 # 10; 3 # 10];
    [1 # 10; 3 # 10; 3 # 10; 3 # 10; 1; 3 # 10; 3 # 10];
    [7 # 10; 3 # 10; 3 # 10; 3 # 10; 3 # 10; 1; 3 # 10];
    [5 # 100; 3 # 10; 3 # 10; 3 # 10; 3 # 10; 3 # 10; 1] ]%Q.

Definition scenario_store : Store :=
  {| popular_df := VFrame empty_frame;
     pt := VFrame (pivot_of_titles scenario_titles);
     scores := VArray scenario_scores;
     all_books := CStr <$> scenario_titles |}.

(** A store whose similarity matrix has fewer rows than the pivot. *)
Definition short_matrix_store : Store :=
  {| popular_df := VFrame empty_frame;
     pt := VFrame (pivot_of_titles ["A"; "B"; "C"]);
     scores := VArray [[1; 1 # 2; 1 # 4]%Q];
     all_books := CStr <$> ["A"; "B"; "C"] |}.

(** A small popularity table. *)
Definition example_popular : DataFrame :=
  DataFrame_of_records
    [ [("Book-Title", CStr "Dune"); ("Book-Author", CStr "Frank Herbert");
       ("Num-Ratings", CInt 420); ("Avg-Rating", CFloat (9 # 2))];
      [("Book-Title", CStr "Emma"); ("Book-Author", CStr "Jane Austen");
       ("Num-Ratings", CInt 310); ("Avg-Rating", CFloat (17 # 4))] ].

(** A dict that names its entries "popular", "pivot" and "scores". *)
Definition spec_keys_blob : gmap string PyVal :=
  <["popular" := VFrame example_popular]>
    (<["pivot" := VFrame (pivot_of_titles scenario_titles)]>
       (<["scores" := VArray scenario_scores]> ∅)).

(** A dict that holds a similarity matrix and nothing else. *)
Definition scores_only_blob : gmap string PyVal :=
  <["scores" := VArray scenario_scores]> ∅.

(** Three books, the first two rated alike by every rater: their cosine
    similarity is 1, as is the similarity of each with itself. *)
Definition tied_scores : list (list Q) :=
  [ [1; 1; 1 # 2];
    [1; 1; 1 # 2];
    [1 # 2; 1 # 2; 1] ]%Q.

Definition tied_blob : Pickle :=
  PSeq [VFrame example_popular; VFrame (pivot_of_titles ["A"; "B"; "C"]); VArray tied_scores].

Definition tied_store : Store :=
  load_model_components (Unpickled tied_blob) initial_store.

(** The data that reaches the [else] branch of the loader without being a
    DataFrame: a sequence of fewer than three items, or an object that is
    neither a sequence, nor a dict, nor a DataFrame. *)
Definition unrecognised (data : Pickle) : bool :=
  match data with
  | PSeq (_ :: _ :: _ :: _) => false
  | PSeq _ => true
  | PDict _ => false
  | PObj (VFrame _) => false
  | PObj _ => true
  end.



(** * Properties *)

(** ** Sampling without replacement *)

Section Draw.
Context {A : Type}.
Implicit Types (pool : list A) (rng : list nat).

Lemma draw_length n pool rng :
  length (draw n pool rng) = Nat.min n (length pool).
Proof.
  revert pool rng. induction n as [|n IH]; intros pool rng; [done|].
  cbn [draw]. destruct (pool !! _) as [x|] eqn:Hx.
  - cbn [length]. rewrite IH, length_delete by eauto.
    apply lookup_lt_Some in Hx. lia.
  - apply lookup_ge_None in Hx. destruct pool as [|y pool]; [done|].
    pose proof (Nat.mod_upper_bound (hd 0 rng) (length (y :: pool))) as Hlt.
    cbn [length] in *. lia.
Qed.

(** The draws are taken at pairwise distinct positions of the pool. *)
Lemma draw_submseteq n pool rng : draw n pool rng ⊆+ pool.
Proof.
  revert pool rng. induction n as [|n IH]; intros pool rng.
  - apply submseteq_nil_l.
  - cbn [draw]. destruct (pool !! _) as [x|] eqn:Hx.
    + trans (x :: delete (hd 0 rng `mod` length pool) pool).
      * apply submseteq_skip, IH.
      * apply Permutation_submseteq. symmetry. by apply delete_Permutation.
    + apply submseteq_nil_l.
Qed.

Lemma draw_elem_of n pool rng x : x ∈ draw n pool rng → x ∈ pool.
Proof. intros Hx. eapply elem_of_submseteq; [exact Hx | apply draw_submseteq]. Qed.
End Draw.

(** ** Frames *)



Lemma degraded_branch st df :
  pt st = VFrame df → degraded st = true →
  attr_empty (pt st) = Ok (frame_empty df) ∧
  frame_empty df || is_none (scores st) = true.
Proof. unfold degraded. intros ->. done. Qed.

Lemma loaded_branch st :
  loaded st = true →
  ∃ df, pt st = VFrame df ∧ frame_empty df = false ∧
        frame_empty df || is_none (scores st) = false.
Proof.
  unfold loaded. destruct (pt st) as [|df| |]; try done.
  intros [H1 H2]%andb_prop. exists df.
  apply negb_true_iff in H1, H2. by rewrite H1, H2.
Qed.

(** In the loaded state [recommend] is its [try] block followed by the
    two handlers. *)
Lemma recommend_loaded_unfold st rng book_name :
  loaded st = true →
  recommend st rng book_name =
    match recommend_try st book_name with
    | Ok recommendations => Ok recommendations
    | Raise KeyError => Ok [CStr (msg_not_found book_name)]
    | Raise _ => Ok [CStr msg_unexpected]
    end.
Proof.
  intros (df & Hpt & He & Hor)%loaded_branch.
  unfold recommend. rewrite Hpt. cbn [attr_empty mbind result_mbind result_bind].
  by rewrite Hor.
Qed.

(** ** The degraded state *)

(** C9. In the degraded state with an empty popularity table, [recommend]
    returns, whatever the title, the one message that the model data is
    unavailable, and does not raise. *)
Theorem recommend_degraded_empty_popularity
    (st : Store) (rng : list nat) (book_name : string) (f : DataFrame) :
  degraded st = true →
  popular_df st = VFrame f →
  frame_empty f = true →
  recommend st rng book_name = Ok [CStr msg_unavailable].
Proof.
  intros Hdeg Hpop Hf. unfold degraded in Hdeg. unfold recommend.
  destruct (pt st) as [|p| |]; try done.
  cbn [attr_empty mbind result_mbind result_bind]. rewrite Hdeg, Hpop.
  cbn [attr_empty mbind result_mbind result_bind]. by rewrite Hf.
Qed.

Lemma recommend_degraded_empty_popularity_witness :
  recommend initial_store [4; 2] "Dune" = Ok [CStr msg_unavailable].
Proof.
  apply (recommend_degraded_empty_popularity initial_store [4; 2] "Dune" empty_frame);
    reflexivity.
Defined.




(** ** The loaded state: unknown titles and failures *)

Lemma cell_eqb_CStr c t : cell_eqb c (CStr t) = true ↔ c = CStr t.
Proof.
  destruct c as [s| | |]; cbn; try (split; [done | intros [=]]).
  rewrite String.eqb_eq. split; [by intros -> | by intros [= ->]].
Qed.

Lemma get_loc_from_absent start labels t :
  CStr t ∉ labels → get_loc_from start labels t = Raise KeyError.
Proof.
  revert start. induction labels as [|c labels IH]; intros start Hnotin; [done|].
  apply not_elem_of_cons in Hnotin as [Hne Hnotin]. cbn [get_loc_from].
  destruct (cell_eqb c (CStr t)) eqn:Hc; [|by apply IH].
  apply cell_eqb_CStr in Hc. by subst.
Qed.

Lemma msg_not_found_mentions t :
  ∃ pre post, msg_not_found t = pre +:+ t +:+ post.
Proof. by exists "Error: '", "' not found in the trained model's index.". Qed.

(** C4. In the loaded state, for a title absent from the pivot's row
    index, [recommend] returns (and does not raise) a list of exactly one
    string, and that string contains the title. *)
Theorem recommend_unknown_title
    (st : Store) (rng : list nat) (t : string) (df : DataFrame) :
  loaded st = true →
  pt st = VFrame df →
  CStr t ∉ frame_index df →
  recommend st rng t = Ok [CStr (msg_not_found t)] ∧
  ∃ pre post, msg_not_found t = pre +:+ t +:+ post.
Proof.
  intros Hloaded Hpt Hnotin. split; [|apply msg_not_found_mentions].
  rewrite recommend_loaded_unfold by done.
  unfold recommend_try. rewrite Hpt.
  cbn [attr_index mbind result_mbind result_bind].
  unfold get_loc. by rewrite get_loc_from_absent.
Qed.

Lemma recommend_unknown_title_witness :
  recommend scenario_store [] "Z" = Ok [CStr (msg_not_found "Z")] ∧
  ∃ pre post, msg_not_found "Z" = pre +:+ "Z" +:+ post.
Proof.
  apply (recommend_unknown_title scenario_store [] "Z" (pivot_of_titles scenario_titles)).
  - reflexivity.
  - reflexivity.
  - refine (bool_decide_unpack _ _). vm_compute. exact I.
Defined.

(** C5. In the loaded state [recommend] never raises: whatever exception
    the computation of the recommendation ends in, the result is a list of
    one message, the unexpected-error message unless the exception is a
    [KeyError]. *)
Theorem recommend_failure_is_caught
    (st : Store) (rng : list nat) (book_name : string) :
  loaded st = true →
  (∃ l, recommend st rng book_name = Ok l) ∧
  ∀ e, recommend_try st book_name = Raise e →
    ∃ msg, recommend st rng book_name = Ok [CStr msg] ∧
           (e = KeyError → msg = msg_not_found book_name) ∧
           (e ≠ KeyError → msg = msg_unexpected).
Proof.
  intros Hloaded. rewrite recommend_loaded_unfold by done. split.
  - destruct (recommend_try st book_name) as [l|[]]; eauto.
  - intros e ->. destruct e; eexists; (split; [reflexivity|]); split; done.
Qed.

Lemma recommend_failure_is_caught_witness :
  (∃ l, recommend short_matrix_store [] "B" = Ok l) ∧
  ∀ e, recommend_try short_matrix_store "B" = Raise e →
    ∃ msg, recommend short_matrix_store [] "B" = Ok [CStr msg] ∧
           (e = KeyError → msg = msg_not_found "B") ∧
           (e ≠ KeyError → msg = msg_unexpected).
Proof. apply (recommend_failure_is_caught short_matrix_store [] "B"). reflexivity. Defined.

(** A matrix with too few rows: the row access is out of range, and the
    caller sees the message, not the [IndexError]. *)
Example recommend_short_matrix :
  recommend_try short_matrix_store "B" = Raise IndexError ∧
  recommend short_matrix_store [] "B" = Ok [CStr msg_unexpected].
Proof. split; reflexivity. Qed.

(** A row longer than the pivot: a ranked position has no title. *)
Example recommend_wide_row :
  let st := set_scores (VArray [[1; 1 # 2; 1 # 4; 1 # 8]%Q]) short_matrix_store in
  recommend_try st "A" = Raise IndexError ∧
  recommend st [] "A" = Ok [CStr msg_unexpected].
Proof. split; reflexivity. Qed.

(** ** The concrete scenario *)

(** C2. With pivot rows A to G and the similarity row
    [1.0, 0.9, 0.2, 0.8, 0.1, 0.7, 0.05] for "A", [recommend "A"] is
    exactly B, D, F, C, E. *)
Theorem recommend_scenario
    (st : Store) (rng : list nat) (df : DataFrame) (m : list (list Q)) :
  pt st = VFrame df →
  frame_empty df = false →
  frame_index df = CStr <$> ["A"; "B"; "C"; "D"; "E"; "F"; "G"] →
  scores st = VArray m →
  m !! 0 = Some [1; 9 # 10; 2 # 10; 8 # 10; 1 # 10; 7 # 10; 5 # 100]%Q →
  recommend st rng "A" = Ok (CStr <$> ["B"; "D"; "F"; "C"; "E"]).
Proof.
  intros Hpt Hne Hidx Hsc Hrow.
  assert (loaded st = true) as Hloaded.
  { unfold loaded. by rewrite Hpt, Hne, Hsc. }
  rewrite recommend_loaded_unfold by done.
  unfold recommend_try. rewrite Hpt, Hsc.
  cbn [attr_index mbind result_mbind result_bind]. rewrite Hidx.
  change (get_loc _ "A") with (@Ok nat 0).
  cbn [mbind result_mbind result_bind getitem_row]. rewrite Hrow.
  reflexivity.
Qed.

Lemma recommend_scenario_witness :
  recommend scenario_store [] "A" = Ok (CStr <$> ["B"; "D"; "F"; "C"; "E"]).
Proof.
  apply (recommend_scenario scenario_store [] (pivot_of_titles scenario_titles)
           scenario_scores); reflexivity.
Defined.

(** ** The loader *)

Lemma mock_title_column : column_values "Book-Title" mock_popular_df = mock_titles.
Proof. reflexivity. Qed.

Lemma mock_num_ratings_column :
  column_values "Num-Ratings" mock_popular_df = CInt <$> mock_num_ratings.
Proof. reflexivity. Qed.

Lemma mock_titles_unique : unique mock_titles = mock_titles.
Proof. reflexivity. Qed.

Lemma mock_getitem_title :
  getitem_col (VFrame mock_popular_df) "Book-Title" = Ok mock_titles.
Proof. reflexivity. Qed.

Lemma mock_num_ratings_increasing : StronglySorted Z.lt mock_num_ratings.
Proof.
  unfold mock_num_ratings, mock_range. generalize 1 at 1. generalize 50.
  intros len. induction len as [|len IH]; intros start; cbn [seq map].
  - constructor.
  - constructor; [apply IH|].
    apply Forall_map, Forall_forall. intros i Hi%elem_of_seq. cbn. lia.
Qed.

Lemma load_unpickled data st :
  load_model_components (Unpickled data) st = settle (classify data st).
Proof.
  unfold load_model_components, load_try, settle. cbn [unpickle].
  by destruct (derive_all_books (classify data st)).
Qed.

Lemma load_unreadable f st e :
  unpickle f = Raise e → load_model_components f st = mock_fallback st.
Proof. unfold load_model_components, load_try. by intros ->. Qed.

Lemma load_try_raises f st st' e :
  load_try f st = (st', Raise e) → load_model_components f st = mock_fallback st'.
Proof. unfold load_model_components. by intros ->. Qed.

(** The derivation of the titles reads the pivot and the popularity
    table, nothing else. *)
Lemma derive_all_books_ext st st' :
  pt st' = pt st → popular_df st' = popular_df st →
  derive_all_books st' = derive_all_books st.
Proof. unfold derive_all_books. by intros -> ->. Qed.

Lemma classify_set_all_books data books st :
  classify data (set_all_books books st) = set_all_books books (classify data st).
Proof. by destruct data as [[|a [|b [|c items]]] | d | v]. Qed.

Lemma classify_idem data st : classify data (classify data st) = classify data st.
Proof.
  destruct data as [[|a [|b [|c items]]] | d | v]; try done.
  unfold classify, set_scores, set_pt, set_popular_df; cbn [popular_df pt scores all_books].
  by destruct (d !! "popular_df"), (d !! "pt"), (d !! "scores").
Qed.

(** Only a dict without the key "popular_df" keeps a popularity table
    that was put in the store beforehand. *)
Lemma classify_after_set_popular data v st :
  let st1 := classify data st in
  classify data (set_popular_df v st1) = st1 ∨
  classify data (set_popular_df v st1) = set_popular_df v st1.
Proof.
  destruct data as [[|a [|b [|c items]]] | d | x]; cbn zeta; try (by left).
  unfold classify, set_scores, set_pt, set_popular_df; cbn [popular_df pt scores all_books].
  destruct (d !! "popular_df"), (d !! "pt"), (d !! "scores"); cbn [default]; auto.
Qed.

Lemma mock_fallback_idem st : mock_fallback (mock_fallback st) = mock_fallback st.
Proof. done. Qed.

Lemma settle_mock_fallback st e :
  derive_all_books st = Raise e → settle (mock_fallback st) = mock_fallback st.
Proof.
  unfold settle, derive_all_books, mock_fallback.
  cbn [pt popular_df set_all_books set_popular_df].
  destruct (pt st) as [|p| |]; cbn [attr_empty attr_index mbind result_mbind result_bind];
    try done.
  destruct (frame_empty p); cbn [negb]; [|done].
  intros _. rewrite mock_getitem_title. cbn [mbind result_mbind result_bind].
  by rewrite mock_title_column, mock_titles_unique.
Qed.

(** C7. Loading is idempotent: a second load of the same file leaves the
    store (popularity table, pivot, similarity matrix, known titles) as
    the first load left it. *)
Theorem load_idempotent (f : FileRead) (st : Store) :
  load_model_components f (load_model_components f st) = load_model_components f st.
Proof.
  destruct f as [| |data].
  - by rewrite !(load_unreadable NoFile _ FileNotFoundError).
  - by rewrite !(load_unreadable Corrupt _ UnpicklingError).
  - rewrite !load_unpickled. set (st1 := classify data st).
    unfold settle at 2 3. destruct (derive_all_books st1) as [books|e] eqn:Hbooks.
    + rewrite classify_set_all_books. subst st1. rewrite classify_idem.
      unfold settle. rewrite (derive_all_books_ext (classify data st)), Hbooks by done.
      done.
    + unfold mock_fallback at 1. rewrite classify_set_all_books.
      destruct (classify_after_set_popular data (VFrame mock_popular_df) st) as [Heq|Heq];
        fold st1 in Heq; rewrite Heq.
      * unfold settle. rewrite (derive_all_books_ext st1), Hbooks by done. done.
      * by apply (settle_mock_fallback st1 e).
Qed.

(** C3, as the code has it. A dict is read under the keys "popular_df",
    "pt" and "scores"; a key that is absent leaves the artifact at its
    prior value.  The pivot and the similarity matrix so obtained are
    those of the store after the load; so is the popularity table, unless
    the post-load preparation raises and the fallback replaces it. *)
Theorem load_dict_reads_keys (d : gmap string PyVal) (st : Store) :
  let st1 := classify (PDict d) st in
  let r := load_model_components (Unpickled (PDict d)) st in
  popular_df st1 = default (popular_df st) (d !! "popular_df") ∧
  pt st1 = default (pt st) (d !! "pt") ∧
  scores st1 = default (scores st) (d !! "scores") ∧
  all_books st1 = all_books st ∧
  pt r = pt st1 ∧
  scores r = scores st1 ∧
  popular_df r = match derive_all_books st1 with
                 | Ok _ => popular_df st1
                 | Raise _ => VFrame mock_popular_df
                 end.
Proof.
  cbn zeta. rewrite load_unpickled. unfold settle.
  repeat split; try done; by destruct (derive_all_books _).
Qed.

(** C3, as the claim words it: the entries under "popular" and "pivot"
    are not what ends up in the store. *)
Lemma dict_spec_keys_not_read :
  let st1 := classify (PDict spec_keys_blob) initial_store in
  ¬ (popular_df st1 = default (popular_df initial_store) (spec_keys_blob !! "popular") ∧
     pt st1 = default (pt initial_store) (spec_keys_blob !! "pivot") ∧
     scores st1 = default (scores initial_store) (spec_keys_blob !! "scores")).
Proof. cbn zeta. intros (_ & Hpt & _). vm_compute in Hpt. discriminate Hpt. Qed.

(** C6, as the code has it. Whatever makes the [try] block raise, the
    popularity table becomes the 50 synthetic entries, titled "Mock
    Popular Book 1" to "Mock Popular Book 50" in this order, with rating
    counts 1001 to 1050, strictly increasing, and the known titles
    become these 50 titles.  The pivot and the similarity matrix are not
    reset: they are what they were when the exception was raised, that
    is, their prior values when the file is missing or corrupt. *)
Theorem load_fallback_state (f : FileRead) (st st' : Store) (e : exn) :
  load_try f st = (st', Raise e) →
  let r := load_model_components f st in
  popular_df r = VFrame mock_popular_df ∧
  frame_len mock_popular_df = 50 ∧
  column_values "Book-Title" mock_popular_df = mock_titles ∧
  mock_titles !! 0 = Some (CStr "Mock Popular Book 1") ∧
  mock_titles !! 49 = Some (CStr "Mock Popular Book 50") ∧
  column_values "Num-Ratings" mock_popular_df = CInt <$> mock_num_ratings ∧
  StronglySorted Z.lt mock_num_ratings ∧
  all_books r = mock_titles ∧
  length (all_books r) = 50 ∧
  pt r = pt st' ∧
  scores r = scores st' ∧
  match unpickle f with
  | Raise _ => pt r = pt st ∧ scores r = scores st
  | Ok data => pt r = pt (classify data st) ∧ scores r = scores (classify data st)
  end.
Proof.
  intros Htry. cbn zeta. rewrite (load_try_raises f st st' e Htry).
  repeat (split; [first [done | apply mock_num_ratings_increasing]|]).
  unfold load_try in Htry. destruct (unpickle f) as [data|e'].
  - destruct (derive_all_books (classify data st)); by simplify_eq.
  - by simplify_eq.
Qed.

Lemma load_fallback_state_witness :
  let r := load_model_components NoFile initial_store in
  popular_df r = VFrame mock_popular_df ∧
  frame_len mock_popular_df = 50 ∧
  column_values "Book-Title" mock_popular_df = mock_titles ∧
  mock_titles !! 0 = Some (CStr "Mock Popular Book 1") ∧
  mock_titles !! 49 = Some (CStr "Mock Popular Book 50") ∧
  column_values "Num-Ratings" mock_popular_df = CInt <$> mock_num_ratings ∧
  StronglySorted Z.lt mock_num_ratings ∧
  all_books r = mock_titles ∧
  length (all_books r) = 50 ∧
  pt r = pt initial_store ∧
  scores r = scores initial_store ∧
  pt r = pt initial_store ∧ scores r = scores initial_store.
Proof.
  apply (load_fallback_state NoFile initial_store initial_store FileNotFoundError).
  reflexivity.
Defined.

(** C6, as the claim words it: a load that fails on the shape of the data
    does not leave the similarity matrix unset. *)
Lemma load_fallback_keeps_scores :
  let f := Unpickled (PDict scores_only_blob) in
  let r := load_model_components f initial_store in
  (load_try f initial_store).2 = Raise KeyError ∧
  popular_df r = VFrame mock_popular_df ∧
  ¬ (attr_empty (pt r) = Ok true ∧ scores r = VNone).
Proof.
  cbn zeta. split; [reflexivity|]. split; [reflexivity|].
  intros [_ Hsc]. vm_compute in Hsc. discriminate Hsc.
Qed.

(** C10. When the data is deserialized but leaves an empty pivot and a
    popularity table without a title column, the derivation of the known
    titles raises [KeyError] and the load ends in the fallback: the 50
    synthetic entries and their titles, not the deserialized table with
    no known titles. *)
Theorem load_untitled_popularity_falls_back
    (data : Pickle) (st : Store) (p f : DataFrame) :
  pt (classify data st) = VFrame p →
  frame_empty p = true →
  popular_df (classify data st) = VFrame f →
  has_column "Book-Title" f = false →
  let r := load_model_components (Unpickled data) st in
  derive_all_books (classify data st) = Raise KeyError ∧
  popular_df r = VFrame mock_popular_df ∧
  popular_df r ≠ VFrame f ∧
  all_books r = mock_titles ∧
  length (all_books r) = 50.
Proof.
  intros Hpt Hp Hpop Hcol. cbn zeta.
  assert (derive_all_books (classify data st) = Raise KeyError) as Hraise.
  { unfold derive_all_books. rewrite Hpt, Hpop.
    cbn [attr_empty getitem_col mbind result_mbind result_bind].
    rewrite Hp. cbn [negb]. by rewrite Hcol. }
  rewrite load_unpickled. unfold settle. rewrite Hraise.
  repeat split; try done.
  cbn [mock_fallback popular_df set_all_books set_popular_df].
  intros [= <-]. by rewrite (eq_refl : has_column "Book-Title" mock_popular_df = true) in Hcol.
Qed.

Lemma load_untitled_popularity_falls_back_witness :
  let r := load_model_components (Unpickled (PDict ∅)) initial_store in
  derive_all_books (classify (PDict ∅) initial_store) = Raise KeyError ∧
  popular_df r = VFrame mock_popular_df ∧
  popular_df r ≠ VFrame empty_frame ∧
  all_books r = mock_titles ∧
  length (all_books r) = 50.
Proof.
  apply (load_untitled_popularity_falls_back (PDict ∅) initial_store empty_frame empty_frame);
    reflexivity.
Defined.

(** ** Ranking in the loaded state *)

Lemma Qlt_bool_spec x y : Qlt_bool x y = true ↔ (x < y)%Q.
Proof.
  unfold Qlt_bool. rewrite Qlt_alt. by destruct (x ?= y)%Q.
Qed.

Lemma outranks_le a b : outranks a b → (b.2 <= a.2)%Q.
Proof.
  intros [Hlt|[Heq _]]; apply Qle_lteq; [by left | right; by symmetry].
Qed.

Lemma outranks_of_le a b : (b.2 <= a.2)%Q → a.1 < b.1 → outranks a b.
Proof.
  intros [Hlt|Heq]%Qle_lteq Hpos; [by left | right; split; [by symmetry | done]].
Qed.

Lemma outranks_asym a b : outranks a b → outranks b a → False.
Proof.
  intros [Hab|[Hab Hpos]] [Hba|[Hba Hpos']].
  - eapply Qlt_irrefl, Qlt_trans; eauto.
  - rewrite Hba in Hab. by apply Qlt_irrefl in Hab.
  - rewrite Hab in Hba. by apply Qlt_irrefl in Hba.
  - lia.
Qed.

Section Sorting.
Context {A : Type} (key : A → Q).
Implicit Types (x : A) (l : list A).

Lemma insert_by_perm x l : insert_by key x l ≡ₚ x :: l.
Proof.
  induction l as [|y l IH]; cbn [insert_by]; [done|].
  destruct (Qlt_bool (key y) (key x)); [|done].
  rewrite IH. apply Permutation_swap.
Qed.

Lemma sort_by_perm l : sort_by key l ≡ₚ l.
Proof.
  induction l as [|x l IH]; cbn [sort_by]; [done|].
  by rewrite insert_by_perm, IH.
Qed.

Lemma sorted_perm reversed l : sorted key reversed l ≡ₚ l.
Proof.
  unfold sorted. destruct reversed; [|apply sort_by_perm].
  by rewrite reverse_Permutation, sort_by_perm, reverse_Permutation.
Qed.
End Sorting.

Lemma StronglySorted_reverse {A : Type} (R : relation A) (l : list A) :
  StronglySorted R l → StronglySorted (flip R) (reverse l).
Proof.
  induction 1 as [|x l Hl IH Hx]; [constructor|].
  rewrite reverse_cons. apply StronglySorted_app. split_and!; [|done|repeat constructor].
  intros a b Ha ->%list_elem_of_singleton. unfold flip.
  rewrite Forall_forall in Hx. apply Hx. by apply elem_of_reverse.
Qed.

Lemma StronglySorted_slice {A : Type} (R : relation A) (lo hi : nat) (l : list A) :
  StronglySorted R l → StronglySorted R (slice lo hi l).
Proof.
  intros Hl. unfold slice.
  rewrite <- (take_drop lo l) in Hl. apply StronglySorted_app_1_r in Hl.
  rewrite <- (take_drop (hi - lo) (drop lo l)) in Hl. by apply StronglySorted_app_1_l in Hl.
Qed.

Lemma slice_subseteq {A : Type} (lo hi : nat) (l : list A) : slice lo hi l ⊆ l.
Proof.
  unfold slice. intros x Hx.
  apply (subseteq_drop lo l), (subseteq_take (hi - lo) _), Hx.
Qed.

Lemma insert_by_outranks (x : nat * Q) (l : list (nat * Q)) :
  StronglySorted (flip outranks) l →
  Forall (λ y, y.1 < x.1) l →
  StronglySorted (flip outranks) (insert_by snd x l).
Proof.
  induction l as [|y l IH]; intros Hs Hpos; cbn [insert_by].
  { repeat constructor. }
  apply StronglySorted_cons in Hs as [Hy Hs]. apply Forall_cons in Hpos as [Hyx Hpos].
  destruct (Qlt_bool y.2 x.2) eqn:Hcmp.
  - apply Qlt_bool_spec in Hcmp. apply StronglySorted_cons. split; [|by apply IH].
    rewrite insert_by_perm. constructor; [by left | done].
  - assert (x.2 <= y.2)%Q as Hle.
    { apply Qnot_lt_le. rewrite <- Qlt_bool_spec. congruence. }
    apply StronglySorted_cons. split; [|by apply StronglySorted_cons].
    constructor; [by apply outranks_of_le|].
    rewrite Forall_forall in Hy, Hpos. apply Forall_forall. intros z Hz.
    apply outranks_of_le; [|by apply Hpos].
    eapply Qle_trans; [exact Hle | apply outranks_le, Hy, Hz].
Qed.

(** Sorting a list whose positions decrease puts equal scores in order of
    decreasing position. *)
Lemma sort_by_outranks (l : list (nat * Q)) :
  StronglySorted (λ a b, b.1 < a.1) l →
  StronglySorted (flip outranks) (sort_by snd l).
Proof.
  induction 1 as [|x l Hl IH Hx]; cbn [sort_by]; [constructor|].
  apply insert_by_outranks; [done|]. by rewrite sort_by_perm.
Qed.

Lemma enumerate_from_lookup {A : Type} (start : nat) (l : list A) (i : nat) (x : A) :
  (i, x) ∈ enumerate_from start l ↔ start ≤ i ∧ l !! (i - start) = Some x.
Proof.
  revert start. induction l as [|y l IH]; intros start; cbn [enumerate_from].
  - split; [by intros ?%elem_of_nil | by intros [_ ?]].
  - rewrite elem_of_cons, IH. split.
    + intros [[= -> ->]|[Hle Hx]].
      * by rewrite Nat.sub_diag.
      * split; [lia|]. by replace (i - start) with (S (i - S start)) by lia.
    + intros [Hle Hx]. destruct (decide (i = start)) as [->|Hne].
      * left. rewrite Nat.sub_diag in Hx. by simplify_eq/=.
      * right. split; [lia|].
        by replace (i - start) with (S (i - S start)) in Hx by lia.
Qed.

Lemma enumerate_from_sorted {A : Type} (start : nat) (l : list A) :
  StronglySorted (λ a b : nat * A, a.1 < b.1) (enumerate_from start l).
Proof.
  revert start. induction l as [|y l IH]; intros start; cbn [enumerate_from]; constructor.
  - apply IH.
  - apply Forall_forall. intros [i x] [Hle _]%enumerate_from_lookup. cbn. lia.
Qed.

Lemma enumerate_from_length {A : Type} (start : nat) (l : list A) :
  length (enumerate_from start l) = length l.
Proof. revert start. induction l; intros; cbn; auto. Qed.

(** The sorted pairs run from the highest score to the lowest, equal
    scores in order of position. *)
Lemma sorted_enumerate_outranks (row : list Q) :
  StronglySorted outranks (sorted snd true (enumerate row)).
Proof.
  unfold sorted, enumerate.
  apply (StronglySorted_reverse (flip outranks)), sort_by_outranks.
  apply (StronglySorted_reverse (λ a b : nat * Q, a.1 < b.1)), enumerate_from_sorted.
Qed.

Lemma ranked_outranks (row : list Q) : StronglySorted outranks (ranked row).
Proof. apply StronglySorted_slice, sorted_enumerate_outranks. Qed.

Lemma ranked_lookup (row : list Q) (i : nat) (s : Q) :
  (i, s) ∈ ranked row → row !! i = Some s.
Proof.
  intros Hin%slice_subseteq. rewrite sorted_perm in Hin.
  apply enumerate_from_lookup in Hin as [_ Hin]. by rewrite Nat.sub_0_r in Hin.
Qed.

Lemma ranked_length (row : list Q) :
  length (ranked row) = Nat.min 5 (length row - 1).
Proof.
  unfold ranked, slice. rewrite length_take, length_drop.
  rewrite (Permutation_length (sorted_perm snd true (enumerate row))).
  unfold enumerate. rewrite enumerate_from_length. lia.
Qed.

Lemma titles_of_ok (labels : list Cell) (items : list (nat * Q)) :
  Forall (λ it, it.1 < length labels) items →
  ∃ titles, titles_of labels items = Ok titles ∧
            Forall2 (λ title it, labels !! it.1 = Some title) titles items.
Proof.
  induction 1 as [|[i s] items Hi _ (titles & Htitles & IH)]; cbn [titles_of].
  { by exists []. }
  apply lookup_lt_is_Some_2 in Hi as [c Hc]. cbn in Hc.
  exists (c :: titles). unfold index_getitem. rewrite Hc, Htitles.
  split; [done|]. by constructor.
Qed.

Lemma get_loc_from_present start labels t :
  CStr t ∈ labels →
  ∃ k, get_loc_from start labels t = Ok (start + k) ∧ labels !! k = Some (CStr t).
Proof.
  revert start. induction labels as [|c labels IH]; intros start Hin.
  { by apply elem_of_nil in Hin. }
  cbn [get_loc_from]. destruct (cell_eqb c (CStr t)) eqn:Hc.
  - apply cell_eqb_CStr in Hc as ->. exists 0. by rewrite Nat.add_0_r.
  - apply elem_of_cons in Hin as [Heq|Hin].
    + symmetry in Heq. apply cell_eqb_CStr in Heq. congruence.
    + destruct (IH (S start) Hin) as (k & Hloc & Hk). exists (S k).
      by rewrite Nat.add_succ_r.
Qed.

(** The pairs that are kept, without reference to how they are computed:
    a first pair [top] outranks them all, they are in ranking order, and
    an entry of the row that is neither [top] nor kept is outranked by
    all five pairs that are. *)
Lemma ranked_spec (row : list Q) :
  row ≠ [] →
  ∃ top,
    StronglySorted outranks (top :: ranked row) ∧
    row !! top.1 = Some top.2 ∧
    ∀ j s, row !! j = Some s →
      (j, s) ∈ top :: ranked row ∨
      (length (ranked row) = 5 ∧ Forall (λ it, outranks it (j, s)) (ranked row)).
Proof.
  intros Hrow.
  pose proof (sorted_enumerate_outranks row) as Hsorted.
  pose proof (sorted_perm snd true (enumerate row)) as Hperm.
  unfold ranked, slice.
  destruct (sorted snd true (enumerate row)) as [|top rest].
  { apply Permutation_nil_l in Hperm. by destruct row. }
  cbn [drop]. rewrite drop_0. change (6 - 1) with 5. exists top.
  apply StronglySorted_cons in Hsorted as [Htop Hrest].
  rewrite <- (take_drop 5 rest) in Htop, Hrest, Hperm.
  apply Forall_app in Htop as [Htop _].
  apply StronglySorted_app in Hrest as (Hcross & Hkept & _).
  split_and!.
  - by apply StronglySorted_cons.
  - assert (top ∈ enumerate row) as Hin by (rewrite <- Hperm; left).
    destruct top as [j0 s0]. apply enumerate_from_lookup in Hin as [_ Hin].
    by rewrite Nat.sub_0_r in Hin.
  - intros j s Hj.
    assert ((j, s) ∈ top :: take 5 rest ++ drop 5 rest) as Hin.
    { rewrite Hperm. apply enumerate_from_lookup. split; [lia | by rewrite Nat.sub_0_r]. }
    apply elem_of_cons in Hin as [->|[Hin|Hin]%elem_of_app]; [left; left|left; by right|].
    right. split.
    + rewrite length_take. apply list_elem_of_lookup in Hin as [i Hi].
      apply lookup_lt_Some in Hi. rewrite length_drop in Hi. lia.
    + apply Forall_forall. intros it Hit. by apply Hcross.
Qed.

(** X1. The ranking that [recommend] returns for a title of the pivot, in a
    store that satisfies the invariants of the data model (unique row
    labels, a square similarity matrix of the dimension of the pivot, and
    the pivot's labels as known titles): at most five titles, all of them
    known titles, each the title of an entry of the title's row.  One
    entry of the row, [top], outranks all the entries returned; these come
    in ranking order (higher score first, equal scores in order of
    position); and every other entry of the row is outranked by all five
    entries returned. *)
Theorem recommend_ranking
    (st : Store) (rng : list nat) (t : string) (df : DataFrame) (m : list (list Q)) :
  loaded st = true →
  pt st = VFrame df →
  scores st = VArray m →
  length m = frame_len df →
  Forall (λ row, length row = frame_len df) m →
  all_books st = frame_index df →
  NoDup (frame_index df) →
  CStr t ∈ frame_index df →
  ∃ k row titles top items,
    frame_index df !! k = Some (CStr t) ∧
    m !! k = Some row ∧
    recommend st rng t = Ok titles ∧
    length titles ≤ 5 ∧
    length titles = Nat.min 5 (frame_len df - 1) ∧
    Forall2 (λ title it, frame_index df !! it.1 = Some title ∧ row !! it.1 = Some it.2)
      titles items ∧
    StronglySorted outranks (top :: items) ∧
    row !! top.1 = Some top.2 ∧
    (∀ j s, row !! j = Some s →
       (j, s) ∈ top :: items ∨
       (length items = 5 ∧ Forall (λ it, outranks it (j, s)) items)) ∧
    ∀ title, title ∈ titles → title ∈ all_books st.
Proof.
  intros Hloaded Hpt Hsc Hdim Hrows Hbooks Hnodup Hin.
  apply list_elem_of_lookup in Hin as [k Hk].
  assert (k < length m) as Hkm.
  { rewrite Hdim. unfold frame_len, frame_index in *.
    apply lookup_lt_Some in Hk. by rewrite length_fmap in Hk. }
  pose proof Hkm as Hklen. apply lookup_lt_is_Some_2 in Hkm as [row Hrow].
  assert (length row = frame_len df) as Hlen.
  { rewrite Forall_forall in Hrows. apply Hrows. by eapply list_elem_of_lookup_2. }
  destruct (titles_of_ok (frame_index df) (ranked row)) as (titles & Htitles & Hall).
  { apply Forall_forall. intros [i s] His%ranked_lookup. cbn.
    apply lookup_lt_Some in His. unfold frame_index. rewrite length_fmap. fold (frame_len df). lia. }
  destruct (ranked_spec row) as (top & Hsorted & Htop & Hcomplete).
  { intros ->. cbn [length] in Hlen. lia. }
  exists k, row, titles, top, (ranked row).
  assert (length titles = Nat.min 5 (frame_len df - 1)) as Hcount.
  { by rewrite (Forall2_length _ _ _ Hall), ranked_length, Hlen. }
  split_and!; try done.
  - rewrite recommend_loaded_unfold by done.
    destruct (get_loc_from_present 0 (frame_index df) t) as (k' & Hloc & Hk').
    { by eapply list_elem_of_lookup_2. }
    rewrite Nat.add_0_l in Hloc.
    assert (k' = k) as -> by by apply (NoDup_lookup (frame_index df) k' k (CStr t)).
    unfold recommend_try. rewrite Hpt, Hsc.
    cbn [attr_index mbind result_mbind result_bind]. unfold get_loc. rewrite Hloc.
    cbn [mbind result_mbind result_bind getitem_row]. rewrite Hrow.
    cbn [mbind result_mbind result_bind]. by rewrite Htitles.
  - lia.
  - apply Forall2_same_length_lookup. split; [by eapply Forall2_length|].
    intros i title [j s] Htitle Hit. cbn. split.
    + by apply (Forall2_lookup_lr _ _ _ _ _ _ Hall Htitle Hit).
    + by eapply ranked_lookup, list_elem_of_lookup_2.
  - intros title [i Htitle]%list_elem_of_lookup. rewrite Hbooks.
    destruct (Forall2_lookup_l _ _ _ _ _ Hall Htitle) as (it & _ & Hit).
    by eapply list_elem_of_lookup_2.
Qed.

(** When the score of position [k] outranks every other entry of the row,
    it is the first of the sorted pairs, the one that the slice drops. *)
Lemma ranked_excludes_dominant (row : list Q) (k : nat) (sk : Q) :
  row !! k = Some sk →
  (∀ j s, row !! j = Some s → j ≠ k → outranks (k, sk) (j, s)) →
  ∀ j s, (j, s) ∈ ranked row → j ≠ k.
Proof.
  intros Hk Hdom j s Hin ->.
  assert (row !! k = Some s) as Hs by by eapply ranked_lookup.
  assert (s = sk) as -> by congruence.
  pose proof (sorted_enumerate_outranks row) as Hsorted.
  pose proof (sorted_perm snd true (enumerate row)) as Hperm.
  unfold ranked, slice in Hin.
  destruct (sorted snd true (enumerate row)) as [|[j0 s0] rest]; [by apply elem_of_nil in Hin|].
  cbn [drop] in Hin. apply (subseteq_take _ rest) in Hin.
  apply StronglySorted_cons in Hsorted as [Hhead _]. rewrite Forall_forall in Hhead.
  pose proof (Hhead _ Hin) as Hout.
  assert ((j0, s0) ∈ enumerate row) as Hin0 by (rewrite <- Hperm; left).
  apply enumerate_from_lookup in Hin0 as [_ Hin0]. rewrite Nat.sub_0_r in Hin0.
  destruct (decide (j0 = k)) as [->|Hne].
  - assert (s0 = sk) as -> by congruence. by eapply outranks_asym.
  - eapply outranks_asym; [exact Hout|]. by apply Hdom.
Qed.

(** X2. The query's own title is left out when its own score outranks the
    rest of its row: it is strictly higher than the scores at earlier
    positions and at least as high as those at later ones. *)
Theorem recommend_excludes_dominant_query
    (st : Store) (rng : list nat) (t : string) (df : DataFrame) (m : list (list Q))
    (k : nat) (row : list Q) (sk : Q) (titles : list Cell) :
  loaded st = true →
  pt st = VFrame df →
  scores st = VArray m →
  NoDup (frame_index df) →
  frame_index df !! k = Some (CStr t) →
  m !! k = Some row →
  length row ≤ frame_len df →
  row !! k = Some sk →
  (∀ j s, row !! j = Some s → j ≠ k → outranks (k, sk) (j, s)) →
  recommend st rng t = Ok titles →
  CStr t ∉ titles.
Proof.
  intros Hloaded Hpt Hsc Hnodup Hk Hrow Hlen Hsk Hdom Hrec.
  destruct (get_loc_from_present 0 (frame_index df) t) as (k' & Hloc & Hk').
  { by eapply list_elem_of_lookup_2. }
  rewrite Nat.add_0_l in Hloc.
  assert (k' = k) as -> by by eapply NoDup_lookup.
  destruct (titles_of_ok (frame_index df) (ranked row)) as (titles' & Htitles & Hall).
  { apply Forall_forall. intros [i s] His%ranked_lookup. cbn.
    apply lookup_lt_Some in His. unfold frame_index. rewrite length_fmap.
    fold (frame_len df). lia. }
  rewrite recommend_loaded_unfold in Hrec by done.
  unfold recommend_try in Hrec. rewrite Hpt, Hsc in Hrec.
  cbn [attr_index mbind result_mbind result_bind] in Hrec.
  unfold get_loc in Hrec. rewrite Hloc in Hrec.
  cbn [mbind result_mbind result_bind getitem_row] in Hrec. rewrite Hrow in Hrec.
  cbn [mbind result_mbind result_bind] in Hrec. rewrite Htitles in Hrec.
  injection Hrec as <-.
  intros [i Hi]%list_elem_of_lookup.
  destruct (Forall2_lookup_l _ _ _ _ _ Hall Hi) as ([j s] & Hit & Hj). cbn in Hj.
  assert (j = k) as -> by by eapply NoDup_lookup.
  apply (ranked_excludes_dominant row k sk Hsk Hdom k s); [|done].
  by eapply list_elem_of_lookup_2.
Qed.

Lemma recommend_ranking_witness :
  ∃ k row titles top items,
    frame_index (pivot_of_titles scenario_titles) !! k = Some (CStr "A") ∧
    scenario_scores !! k = Some row ∧
    recommend scenario_store [] "A" = Ok titles ∧
    length titles ≤ 5 ∧
    length titles = Nat.min 5 (frame_len (pivot_of_titles scenario_titles) - 1) ∧
    Forall2 (λ title it, frame_index (pivot_of_titles scenario_titles) !! it.1 = Some title ∧
                         row !! it.1 = Some it.2)
      titles items ∧
    StronglySorted outranks (top :: items) ∧
    row !! top.1 = Some top.2 ∧
    (∀ j s, row !! j = Some s →
       (j, s) ∈ top :: items ∨
       (length items = 5 ∧ Forall (λ it, outranks it (j, s)) items)) ∧
    ∀ title, title ∈ titles → title ∈ all_books scenario_store.
Proof.
  apply (recommend_ranking scenario_store [] "A" (pivot_of_titles scenario_titles)
           scenario_scores); try reflexivity.
  - repeat constructor.
  - refine (bool_decide_unpack _ _). vm_compute. exact I.
  - refine (bool_decide_unpack _ _). vm_compute. exact I.
Defined.

Lemma recommend_excludes_dominant_query_witness :
  CStr "A" ∉ [CStr "B"; CStr "D"; CStr "F"; CStr "C"; CStr "E"].
Proof.
  apply (recommend_excludes_dominant_query scenario_store [] "A"
           (pivot_of_titles scenario_titles) scenario_scores 0 scenario_row 1%Q);
    try reflexivity.
  - refine (bool_decide_unpack _ _). vm_compute. exact I.
  - intros j s Hj Hne. left.
    do 7 (destruct j as [|j]; [by (try done; injection Hj as <-)|]).
    done.
Defined.

(** C1, at a similarity matrix with a tie. The store is loaded from a
    tuple whose pivot has the rows A, B, C and whose matrix gives A and B
    the similarity 1, the similarity of each book with itself.  The
    sorted row of B starts with A, the slice drops A, and the
    recommendations for B are B itself and C: the title asked for is
    among the titles returned. *)
Theorem recommend_returns_query_on_tie (rng : list nat) :
  loaded tied_store = true ∧
  all_books tied_store = CStr <$> ["A"; "B"; "C"] ∧
  sorted snd true (enumerate [1; 1; 1 # 2]%Q) = [(0, 1%Q); (1, 1%Q); (2, (1 # 2)%Q)] ∧
  recommend tied_store rng "B" = Ok [CStr "B"; CStr "C"] ∧
  recommend tied_store rng "A" = Ok [CStr "B"; CStr "C"].
Proof. repeat split; reflexivity. Qed.

(** ** More on the recommender *)

Lemma enumerate_from_positions {A : Type} (start : nat) (l : list A) :
  (enumerate_from start l).*1 = seq start (length l).
Proof.
  revert start. induction l as [|x l IH]; intros start; [done|].
  cbn [enumerate_from fmap list_fmap length seq]. f_equal. apply IH.
Qed.

Lemma slice_sublist {A : Type} (lo hi : nat) (l : list A) : slice lo hi l `sublist_of` l.
Proof.
  unfold slice. trans (drop lo l); [apply sublist_take | apply sublist_drop].
Qed.

(** No position is ranked twice. *)
Lemma ranked_positions_NoDup (row : list Q) : NoDup (ranked row).*1.
Proof.
  apply (sublist_NoDup _ (sorted snd true (enumerate row)).*1).
  - rewrite (sorted_perm snd true (enumerate row)). unfold enumerate.
    rewrite enumerate_from_positions. apply NoDup_seq.
  - apply fmap_sublist, slice_sublist.
Qed.

Lemma titles_of_inv (labels : list Cell) (items : list (nat * Q)) (titles : list Cell) :
  titles_of labels items = Ok titles →
  Forall2 (λ title it, labels !! it.1 = Some title) titles items.
Proof.
  revert titles. induction items as [|[i s] items IH]; intros titles; cbn [titles_of].
  { intros [= <-]. constructor. }
  unfold index_getitem. destruct (labels !! i) as [c|] eqn:Hc; [|done].
  cbn [mbind result_mbind result_bind].
  destruct (titles_of labels items) as [rest|]; [|done].
  cbn [mbind result_mbind result_bind]. intros [= <-]. constructor; [done|by apply IH].
Qed.

Lemma titles_of_out_of_range (labels : list Cell) (items : list (nat * Q)) :
  Exists (λ it, length labels ≤ it.1) items →
  titles_of labels items = Raise IndexError.
Proof.
  induction items as [|[i s] items IH]; intros Hex; [by apply Exists_nil in Hex|].
  cbn [titles_of]. unfold index_getitem.
  destruct (labels !! i) as [c|] eqn:Hc; [|done].
  cbn [mbind result_mbind result_bind].
  apply Exists_cons in Hex as [Hi|Hex].
  - apply lookup_lt_Some in Hc. cbn in Hi. lia.
  - by rewrite (IH Hex).
Qed.

(** What the [try] block computes once the title is found at position
    [k] of a pivot with unique labels. *)
Lemma recommend_try_at (st : Store) (t : string) (df : DataFrame) (k : nat) :
  pt st = VFrame df →
  NoDup (frame_index df) →
  frame_index df !! k = Some (CStr t) →
  recommend_try st t =
    (row ← getitem_row (scores st) k; titles_of (frame_index df) (ranked row)).
Proof.
  intros Hpt Hnodup Hk. unfold recommend_try. rewrite Hpt.
  cbn [attr_index mbind result_mbind result_bind].
  destruct (get_loc_from_present 0 (frame_index df) t) as (k' & Hloc & Hk').
  { by eapply list_elem_of_lookup_2. }
  rewrite Nat.add_0_l in Hloc.
  assert (k' = k) as -> by by eapply NoDup_lookup.
  unfold get_loc. by rewrite Hloc.
Qed.

Lemma titles_of_NoDup (labels : list Cell) (items : list (nat * Q)) (titles : list Cell) :
  NoDup labels → NoDup items.*1 →
  titles_of labels items = Ok titles → NoDup titles.
Proof.
  intros Hlabels Hitems Hall%titles_of_inv. apply NoDup_alt. intros i j title Hi Hj.
  destruct (Forall2_lookup_l _ _ _ _ _ Hall Hi) as ([pi si] & Hiti & Hli).
  destruct (Forall2_lookup_l _ _ _ _ _ Hall Hj) as ([pj sj] & Hitj & Hlj).
  cbn in Hli, Hlj.
  assert (pi = pj) as -> by by apply (NoDup_lookup labels pi pj title).
  apply (NoDup_lookup items.*1 i j pj Hitems); rewrite list_lookup_fmap.
  - by rewrite Hiti.
  - by rewrite Hitj.
Qed.

(** X4. In the loaded state, over a pivot with unique row labels, no title is
    recommended twice, whatever the similarity matrix holds. *)
Theorem recommend_loaded_distinct
    (st : Store) (rng : list nat) (t : string) (df : DataFrame) (titles : list Cell) :
  loaded st = true →
  pt st = VFrame df →
  NoDup (frame_index df) →
  recommend st rng t = Ok titles →
  NoDup titles.
Proof.
  intros Hloaded Hpt Hnodup. rewrite recommend_loaded_unfold by done.
  destruct (recommend_try st t) as [l|e] eqn:Htry.
  - intros [= <-]. unfold recommend_try in Htry. rewrite Hpt in Htry.
    cbn [attr_index mbind result_mbind result_bind] in Htry.
    destruct (get_loc (frame_index df) t) as [k|]; [|done].
    cbn [mbind result_mbind result_bind] in Htry.
    destruct (getitem_row (scores st) k) as [row|]; [|done].
    cbn [mbind result_mbind result_bind] in Htry.
    eapply titles_of_NoDup; [done|apply ranked_positions_NoDup|done].
  - destruct e; intros [= <-]; apply NoDup_singleton.
Qed.

Lemma recommend_loaded_distinct_witness :
  NoDup [CStr "B"; CStr "C"].
Proof.
  apply (recommend_loaded_distinct tied_store [] "B" (pivot_of_titles ["A"; "B"; "C"])).
  - reflexivity.
  - reflexivity.
  - refine (bool_decide_unpack _ _). vm_compute. exact I.
  - reflexivity.
Defined.

(** X5. Whatever the state of the store, a list that [recommend] returns
    has at most five entries. *)
Theorem recommend_at_most_five
    (st : Store) (rng : list nat) (t : string) (l : list Cell) :
  recommend st rng t = Ok l → length l ≤ 5.
Proof.
  unfold recommend. destruct (attr_empty (pt st)) as [pe|]; [|done].
  cbn [mbind result_mbind result_bind].
  destruct (pe || is_none (scores st)).
  - destruct (attr_empty (popular_df st)) as [[]|]; cbn [mbind result_mbind result_bind];
      [intros [= <-]; cbn; lia| |done].
    destruct (getitem_col (popular_df st) "Book-Title") as [col|]; [|done].
    cbn [mbind result_mbind result_bind].
    destruct (py_len (popular_df st)) as [n|]; [|done].
    cbn [mbind result_mbind result_bind]. unfold sample. case_decide; [done|].
    intros Heq. assert (l = draw (Nat.min 5 n) col rng) as -> by congruence.
    rewrite draw_length. lia.
  - destruct (recommend_try st t) as [titles|e] eqn:Htry.
    + intros [= <-]. unfold recommend_try in Htry.
      destruct (attr_index (pt st)) as [labels|]; [|done].
      cbn [mbind result_mbind result_bind] in Htry.
      destruct (get_loc labels t) as [k|]; [|done].
      cbn [mbind result_mbind result_bind] in Htry.
      destruct (getitem_row (scores st) k) as [row|]; [|done].
      cbn [mbind result_mbind result_bind] in Htry.
      apply titles_of_inv, Forall2_length in Htry. rewrite Htry, ranked_length. lia.
    + destruct e; intros [= <-]; cbn; lia.
Qed.

Lemma recommend_at_most_five_witness :
  length (CStr <$> ["B"; "D"; "F"; "C"; "E"]) ≤ 5.
Proof. apply (recommend_at_most_five scenario_store [] "A"). reflexivity. Defined.

(** The entry of a row that outranks all the others is the first of the
    sorted pairs. *)
Lemma sorted_head_dominant (row : list Q) (j0 : nat) (s0 : Q) :
  row !! j0 = Some s0 →
  (∀ j s, row !! j = Some s → j ≠ j0 → outranks (j0, s0) (j, s)) →
  ∃ rest, sorted snd true (enumerate row) = (j0, s0) :: rest.
Proof.
  intros Hj0 Hdom.
  pose proof (sorted_enumerate_outranks row) as Hsorted.
  pose proof (sorted_perm snd true (enumerate row)) as Hperm.
  assert ((j0, s0) ∈ sorted snd true (enumerate row)) as Hin.
  { rewrite Hperm. apply enumerate_from_lookup.
    split; [lia | by rewrite Nat.sub_0_r]. }
  destruct (sorted snd true (enumerate row)) as [|[j1 s1] rest]; [by apply elem_of_nil in Hin|].
  exists rest. apply elem_of_cons in Hin as [Heq|Hin]; [congruence|].
  apply StronglySorted_cons in Hsorted as [Hhead _]. rewrite Forall_forall in Hhead.
  assert ((j1, s1) ∈ enumerate row) as Hin1 by (rewrite <- Hperm; left).
  apply enumerate_from_lookup in Hin1 as [_ Hin1]. rewrite Nat.sub_0_r in Hin1.
  destruct (decide (j1 = j0)) as [->|Hne]; [by simplify_eq|].
  exfalso. eapply outranks_asym; [apply Hhead, Hin | by apply Hdom].
Qed.

(** X3. The slice drops the first sorted pair, not the pair of the query:
    in a catalogue of at most six books in which another book outranks
    every entry of the query's row, the query's own title is among the
    titles recommended for it. *)
Theorem recommend_returns_outranked_query
    (st : Store) (rng : list nat) (t : string) (df : DataFrame) (m : list (list Q))
    (k : nat) (row : list Q) (sk : Q) (j0 : nat) (s0 : Q) :
  loaded st = true →
  pt st = VFrame df →
  scores st = VArray m →
  NoDup (frame_index df) →
  frame_index df !! k = Some (CStr t) →
  m !! k = Some row →
  length row ≤ frame_len df →
  length row ≤ 6 →
  row !! k = Some sk →
  row !! j0 = Some s0 →
  j0 ≠ k →
  (∀ j s, row !! j = Some s → j ≠ j0 → outranks (j0, s0) (j, s)) →
  ∃ titles, recommend st rng t = Ok titles ∧ CStr t ∈ titles.
Proof.
  intros Hloaded Hpt Hsc Hnodup Hk Hrow Hlen Hsix Hsk Hj0 Hne Hdom.
  destruct (titles_of_ok (frame_index df) (ranked row)) as (titles & Htitles & Hall).
  { apply Forall_forall. intros [i s] His%ranked_lookup. cbn.
    apply lookup_lt_Some in His. unfold frame_index. rewrite length_fmap.
    fold (frame_len df). lia. }
  exists titles. split.
  - rewrite recommend_loaded_unfold by done.
    rewrite (recommend_try_at st t df k) by done. rewrite Hsc.
    cbn [getitem_row]. rewrite Hrow. cbn [mbind result_mbind result_bind].
    by rewrite Htitles.
  - assert ((k, sk) ∈ ranked row) as [i Hi]%list_elem_of_lookup.
    { pose proof (sorted_perm snd true (enumerate row)) as Hperm.
      destruct (sorted_head_dominant row j0 s0 Hj0 Hdom) as [rest Hrest].
      unfold ranked, slice. rewrite Hrest in *. cbn [drop]. rewrite drop_0.
      rewrite take_ge.
      - assert ((k, sk) ∈ (j0, s0) :: rest) as Hin.
        { rewrite Hperm. apply enumerate_from_lookup.
    split; [lia | by rewrite Nat.sub_0_r]. }
        apply elem_of_cons in Hin as [[= ? ?]|Hin]; [congruence|done].
      - apply Permutation_length in Hperm. unfold enumerate in Hperm.
        rewrite enumerate_from_length in Hperm. cbn [length] in Hperm. lia. }
    destruct (Forall2_lookup_r _ _ _ _ _ Hall Hi) as (title & Htitle & Hlabel).
    cbn in Hlabel. assert (title = CStr t) as -> by congruence.
    by eapply list_elem_of_lookup_2.
Qed.

Lemma recommend_returns_outranked_query_witness :
  ∃ titles, recommend tied_store [] "B" = Ok titles ∧ CStr "B" ∈ titles.
Proof.
  apply (recommend_returns_outranked_query tied_store [] "B"
           (pivot_of_titles ["A"; "B"; "C"]) tied_scores 1 [1; 1; 1 # 2]%Q 1%Q 0 1%Q);
    try reflexivity.
  - refine (bool_decide_unpack _ _). vm_compute. exact I.
  - apply Nat.leb_le. reflexivity.
  - discriminate.
  - intros j s Hj Hne.
    destruct j as [|[|[|j]]]; [done| | |done]; injection Hj as <-.
    + right. split; [reflexivity | cbn; lia].
    + by left.
Defined.

(** X6. A similarity matrix that does not fit the pivot: when it has no row
    at the position of the title, or when a ranked position of that row
    lies beyond the pivot's last row, the caller gets the unexpected-error
    message and no titles. *)
Theorem recommend_misfit_matrix
    (st : Store) (rng : list nat) (t : string) (df : DataFrame) (m : list (list Q))
    (k : nat) :
  loaded st = true →
  pt st = VFrame df →
  scores st = VArray m →
  NoDup (frame_index df) →
  frame_index df !! k = Some (CStr t) →
  (m !! k = None ∨
   ∃ row, m !! k = Some row ∧ Exists (λ it, frame_len df ≤ it.1) (ranked row)) →
  recommend st rng t = Ok [CStr msg_unexpected].
Proof.
  intros Hloaded Hpt Hsc Hnodup Hk Hbad.
  rewrite recommend_loaded_unfold by done.
  rewrite (recommend_try_at st t df k) by done. rewrite Hsc. cbn [getitem_row].
  destruct Hbad as [->|(row & -> & Hex)]; [done|].
  cbn [mbind result_mbind result_bind]. rewrite titles_of_out_of_range; [done|].
  eapply Exists_impl; [exact Hex|]. intros [i s]. cbn. unfold frame_index, frame_len.
  by rewrite length_fmap.
Qed.

Lemma recommend_misfit_matrix_witness :
  recommend short_matrix_store [] "B" = Ok [CStr msg_unexpected].
Proof.
  apply (recommend_misfit_matrix short_matrix_store [] "B"
           (pivot_of_titles ["A"; "B"; "C"]) [[1; 1 # 2; 1 # 4]%Q] 1);
    try reflexivity.
  - refine (bool_decide_unpack _ _). vm_compute. exact I.
  - left. reflexivity.
Defined.

Lemma draw_NoDup {A : Type} (n : nat) (pool : list A) (rng : list nat) :
  NoDup pool → NoDup (draw n pool rng).
Proof.
  revert pool rng. induction n as [|n IH]; intros pool rng Hpool; [constructor|].
  cbn [draw]. destruct (pool !! _) as [x|] eqn:Hx; [|constructor].
  apply delete_Permutation in Hx. rewrite Hx in Hpool.
  apply NoDup_cons in Hpool as [Hnotin Hpool]. apply NoDup_cons. split; [|by apply IH].
  intros Hin%draw_elem_of. done.
Qed.

(** X7. In the degraded state the title asked for plays no part, and over a
    popularity table with pairwise distinct titles no title is returned
    twice. *)
Theorem recommend_degraded_distinct
    (st : Store) (rng : list nat) (t t' : string) (f : DataFrame) :
  degraded st = true →
  popular_df st = VFrame f →
  NoDup (column_values "Book-Title" f) →
  recommend st rng t' = recommend st rng t ∧
  ∀ titles, recommend st rng t = Ok titles → NoDup titles.
Proof.
  intros Hdeg Hpop Hnodup. unfold degraded in Hdeg. unfold recommend.
  destruct (pt st) as [|p| |]; try done.
  cbn [attr_empty mbind result_mbind result_bind]. rewrite Hdeg, Hpop.
  split; [done|]. intros titles.
  cbn [attr_empty getitem_col py_len mbind result_mbind result_bind].
  destruct (frame_empty f); [intros [= <-]; apply NoDup_singleton|].
  destruct (has_column "Book-Title" f); [|done].
  cbn [mbind result_mbind result_bind]. unfold sample. case_decide; [done|].
  intros Heq.
  assert (titles = draw (Nat.min 5 (frame_len f)) (column_values "Book-Title" f) rng)
    as -> by congruence.
  by apply draw_NoDup.
Qed.

Lemma recommend_degraded_distinct_witness :
  recommend (load_model_components NoFile initial_store) [3; 100; 7] "Emma" =
    recommend (load_model_components NoFile initial_store) [3; 100; 7] "Dune" ∧
  ∀ titles,
    recommend (load_model_components NoFile initial_store) [3; 100; 7] "Dune" = Ok titles →
    NoDup titles.
Proof.
  apply (recommend_degraded_distinct (load_model_components NoFile initial_store)
           [3; 100; 7] "Dune" "Emma" mock_popular_df); try reflexivity.
  refine (bool_decide_unpack _ _). vm_compute. exact I.
Defined.

(** The loaded path reads the pivot and the similarity matrix, nothing
    else. *)
Lemma recommend_loaded_ext (st st' : Store) (rng rng' : list nat) (t : string) :
  loaded st = true → pt st' = pt st → scores st' = scores st →
  loaded st' = true ∧ recommend st' rng' t = recommend st rng t.
Proof.
  intros Hloaded Hpt Hsc.
  assert (loaded st' = true) as Hloaded'.
  { unfold loaded in *. by rewrite Hpt, Hsc. }
  split; [done|]. rewrite !recommend_loaded_unfold by done.
  unfold recommend_try. by rewrite Hpt, Hsc.
Qed.

(** X8. A reload that fails to read the file leaves a loaded store loaded:
    the recommendations are those of before, from the pivot and matrix
    still in place, while the popularity table and the known titles are
    replaced by the synthetic ones. *)
Theorem failed_reload_keeps_recommender
    (f : FileRead) (e : exn) (st : Store) (rng rng' : list nat) (t : string) :
  unpickle f = Raise e →
  loaded st = true →
  let r := load_model_components f st in
  loaded r = true ∧
  recommend r rng' t = recommend st rng t ∧
  popular_df r = VFrame mock_popular_df ∧
  all_books r = mock_titles.
Proof.
  intros Hf Hloaded. cbn zeta. rewrite (load_unreadable f st e Hf).
  destruct (recommend_loaded_ext st (mock_fallback st) rng rng' t) as [H1 H2]; done.
Qed.

Lemma failed_reload_keeps_recommender_witness :
  let r := load_model_components NoFile scenario_store in
  loaded r = true ∧
  recommend r [1] "A" = recommend scenario_store [] "A" ∧
  popular_df r = VFrame mock_popular_df ∧
  all_books r = mock_titles.
Proof.
  apply (failed_reload_keeps_recommender NoFile FileNotFoundError scenario_store [] [1] "A");
    reflexivity.
Defined.

(** ** More on the loader *)

(** X9. A sequence of three or more items whose second item is a non-empty
    DataFrame always loads: the first three items become the popularity
    table, the pivot and the similarity matrix, whatever they are and
    whatever the store held before, further items are ignored, and the
    known titles are the row labels of the pivot. *)
Theorem load_sequence_with_pivot
    (a c : PyVal) (df : DataFrame) (rest : list PyVal) (st : Store) :
  frame_empty df = false →
  let r := load_model_components (Unpickled (PSeq (a :: VFrame df :: c :: rest))) st in
  r = {| popular_df := a; pt := VFrame df; scores := c; all_books := frame_index df |} ∧
  loaded r = negb (is_none c).
Proof.
  intros Hdf. cbn zeta. rewrite load_unpickled. unfold settle, derive_all_books.
  cbn [classify pt popular_df set_scores set_pt set_popular_df attr_empty attr_index
       mbind result_mbind result_bind].
  rewrite Hdf. cbn [negb]. split; [done|].
  unfold loaded. cbn [pt scores set_all_books set_scores set_pt set_popular_df].
  by rewrite Hdf.
Qed.

Lemma load_sequence_with_pivot_witness :
  let r := load_model_components (Unpickled tied_blob) scenario_store in
  r = {| popular_df := VFrame example_popular;
         pt := VFrame (pivot_of_titles ["A"; "B"; "C"]);
         scores := VArray tied_scores;
         all_books := frame_index (pivot_of_titles ["A"; "B"; "C"]) |} ∧
  loaded r = negb (is_none (VArray tied_scores)).
Proof.
  apply (load_sequence_with_pivot (VFrame example_popular) (VArray tied_scores)
           (pivot_of_titles ["A"; "B"; "C"]) [] scenario_store).
  reflexivity.
Defined.

Section Unique.
Context {A : Type} (eqb : A → A → bool).
Hypothesis eqb_eq : ∀ x y, eqb x y = true ↔ x = y.

Lemma existsb_eqb_elem_of (x : A) (seen : list A) :
  existsb (eqb x) seen = true ↔ x ∈ seen.
Proof.
  rewrite existsb_exists. split.
  - intros (y & Hy%list_elem_of_In & ->%eqb_eq). done.
  - intros Hx. exists x. split; [by apply list_elem_of_In | by apply eqb_eq].
Qed.

Lemma unique_by_elem_of (seen l : list A) (x : A) :
  x ∈ unique_by eqb seen l ↔ x ∈ l ∧ x ∉ seen.
Proof.
  revert seen. induction l as [|y l IH]; intros seen; cbn [unique_by].
  { split; [by intros ?%elem_of_nil | by intros [?%elem_of_nil _]]. }
  assert (x = y ∨ x ≠ y) as Hxy.
  { destruct (eqb x y) eqn:Hxy; [left; by apply eqb_eq|right].
    intros ->. assert (eqb y y = true) by by apply eqb_eq. congruence. }
  destruct (existsb (eqb y) seen) eqn:Hy.
  - apply existsb_eqb_elem_of in Hy. rewrite IH, elem_of_cons.
    destruct Hxy as [->|Hne]; tauto.
  - assert (y ∉ seen) as Hnotin.
    { intros Hin%existsb_eqb_elem_of. congruence. }
    rewrite !elem_of_cons, IH, not_elem_of_cons.
    destruct Hxy as [->|Hne]; tauto.
Qed.

Lemma unique_by_NoDup (seen l : list A) : NoDup (unique_by eqb seen l).
Proof.
  revert seen. induction l as [|y l IH]; intros seen; cbn [unique_by]; [constructor|].
  destruct (existsb (eqb y) seen); [apply IH|].
  apply NoDup_cons. split; [|apply IH].
  rewrite unique_by_elem_of, not_elem_of_cons. tauto.
Qed.


End Unique.

Example unique_keeps_first :
  unique [CStr "Dune"; CStr "Emma"; CStr "Dune"; CStr "Ulysses"; CStr "Emma"] =
    [CStr "Dune"; CStr "Emma"; CStr "Ulysses"].
Proof. reflexivity. Qed.





(** X11. Data of no recognised shape (a sequence of fewer than three items,
    or an object that is neither a sequence, a dict nor a DataFrame)
    empties the popularity table.  Over an empty pivot the load then ends
    as for a missing file; over a non-empty pivot it succeeds with an
    empty popularity table and the pivot's labels as known titles. *)
Theorem load_unrecognised_data (data : Pickle) (st : Store) (p : DataFrame) :
  unrecognised data = true →
  pt st = VFrame p →
  load_model_components (Unpickled data) st =
    if frame_empty p then load_model_components NoFile st
    else set_all_books (frame_index p) (set_popular_df (VFrame empty_frame) st).
Proof.
  intros Hdata Hpt. rewrite load_unpickled.
  assert (classify data st = set_popular_df (VFrame empty_frame) st) as ->.
  { destruct data as [[|a [|b [|c items]]] | d | []]; done. }
  unfold settle, derive_all_books. cbn [pt popular_df set_popular_df]. rewrite Hpt.
  cbn [attr_empty attr_index mbind result_mbind result_bind].
  destruct (frame_empty p); cbn [negb]; [|done].
  by destruct st.
Qed.

Lemma load_unrecognised_data_witness :
  load_model_components (Unpickled (PSeq [VFrame example_popular; VNone])) initial_store =
    if frame_empty empty_frame then load_model_components NoFile initial_store
    else set_all_books (frame_index empty_frame)
           (set_popular_df (VFrame empty_frame) initial_store).
Proof.
  apply (load_unrecognised_data (PSeq [VFrame example_popular; VNone]) initial_store
           empty_frame); reflexivity.
Defined.

(** X12. After a load of deserialized data that leaves a DataFrame as pivot,
    the known titles agree with the store: they are the pivot's row
    labels when the pivot is not empty, and otherwise the distinct titles
    of the popularity table now in the store, be it the loaded or the
    synthetic one. *)
Theorem load_known_titles_consistent (data : Pickle) (st : Store) (p : DataFrame) :
  let r := load_model_components (Unpickled data) st in
  pt r = VFrame p →
  if frame_empty p
  then ∃ f, popular_df r = VFrame f ∧
            has_column "Book-Title" f = true ∧
            all_books r = unique (column_values "Book-Title" f)
  else all_books r = frame_index p.
Proof.
  cbn zeta. rewrite load_unpickled. destruct (classify data st) as [pop ptv sc ab].
  unfold settle, derive_all_books, mock_fallback, set_all_books, set_popular_df.
  cbn [pt popular_df scores all_books].
  destruct ptv as [|p1| |];
    cbn [attr_empty attr_index mbind result_mbind result_bind pt]; try done.
  destruct (frame_empty p1) eqn:Hp1; cbn [negb].
  - destruct pop as [|f| |];
      cbn [getitem_col mbind result_mbind result_bind pt popular_df all_books];
      try (intros [= <-]; rewrite Hp1; by exists mock_popular_df).
    destruct (has_column "Book-Title" f) eqn:Hcol;
      cbn [mbind result_mbind result_bind pt popular_df all_books];
      intros [= <-]; rewrite Hp1.
    + by exists f.
    + by exists mock_popular_df.
  - cbn [pt all_books]. intros [= <-]. by rewrite Hp1.
Qed.

Lemma load_known_titles_consistent_witness :
  ∃ f, popular_df (load_model_components (Unpickled (PDict ∅)) initial_store) = VFrame f ∧
       has_column "Book-Title" f = true ∧
       all_books (load_model_components (Unpickled (PDict ∅)) initial_store) =
         unique (column_values "Book-Title" f).
Proof.
  apply (load_known_titles_consistent (PDict ∅) initial_store empty_frame). reflexivity.
Defined.

(** X13. A sequence whose second item is not a DataFrame ends in the
    fallback with that item left in place as the pivot; from then on
    [recommend] raises [AttributeError] for every title, the fallback
    data notwithstanding. *)
Theorem load_non_frame_pivot
    (a b c : PyVal) (rest : list PyVal) (st : Store) (rng : list nat) (t : string) :
  (∀ df, b ≠ VFrame df) →
  let r := load_model_components (Unpickled (PSeq (a :: b :: c :: rest))) st in
  popular_df r = VFrame mock_popular_df ∧
  all_books r = mock_titles ∧
  pt r = b ∧
  scores r = c ∧
  recommend r rng t = Raise AttributeError.
Proof.
  intros Hb. cbn zeta. rewrite load_unpickled.
  assert (attr_empty b = Raise AttributeError) as Hempty.
  { destruct b as [|df| |]; try done. by destruct (Hb df). }
  unfold settle, derive_all_books.
  cbn [classify pt popular_df set_scores set_pt set_popular_df]. rewrite Hempty.
  cbn [mbind result_mbind result_bind]. split_and!; try done.
  unfold recommend, mock_fallback. cbn [pt set_all_books set_popular_df set_scores set_pt].
  by rewrite Hempty.
Qed.

Lemma load_non_frame_pivot_witness :
  let r := load_model_components
             (Unpickled (PSeq [VFrame example_popular; VNone; VNone])) initial_store in
  popular_df r = VFrame mock_popular_df ∧
  all_books r = mock_titles ∧
  pt r = VNone ∧
  scores r = VNone ∧
  recommend r [5] "Dune" = Raise AttributeError.
Proof.
  apply (load_non_frame_pivot (VFrame example_popular) VNone VNone [] initial_store
           [5] "Dune").
  intros df. discriminate.
Defined.

(** X14. When a load ends in the fallback and the pivot in place is a
    DataFrame, [recommend] answers every query: from the pivot and matrix
    left in place if they make a loaded state, and otherwise with exactly
    five of the synthetic titles, no two of them the same. *)
Theorem fallback_store_answers
    (f : FileRead) (st st' : Store) (e : exn) (p : DataFrame) (rng : list nat) (t : string) :
  load_try f st = (st', Raise e) →
  pt st' = VFrame p →
  let r := load_model_components f st in
  ∃ l, recommend r rng t = Ok l ∧
       (loaded r = true ∨ (length l = 5 ∧ NoDup l ∧ l ⊆+ mock_titles)).
Proof.
  intros Htry Hpt. cbn zeta. rewrite (load_try_raises f st st' e Htry).
  destruct (loaded (mock_fallback st')) eqn:Hloaded.
  - rewrite recommend_loaded_unfold by done.
    destruct (recommend_try (mock_fallback st') t) as [l|[]]; eauto.
  - unfold loaded in Hloaded. unfold recommend, mock_fallback in *.
    cbn [pt scores popular_df set_all_books set_popular_df] in *. rewrite Hpt in *.
    cbn [attr_empty mbind result_mbind result_bind].
    assert (frame_empty p || is_none (scores st') = true) as ->.
    { destruct (frame_empty p), (is_none (scores st')); done. }
    change (attr_empty (VFrame mock_popular_df)) with (@Ok bool false).
    cbn [mbind result_mbind result_bind]. rewrite mock_getitem_title.
    change (py_len (VFrame mock_popular_df)) with (@Ok nat 50).
    cbn [mbind result_mbind result_bind]. eexists. split; [reflexivity|]. right.
    split_and!.
    + by rewrite draw_length.
    + apply draw_NoDup. refine (bool_decide_unpack _ _). vm_compute. exact I.
    + apply draw_submseteq.
Qed.

Lemma fallback_store_answers_witness :
  ∃ l, recommend (load_model_components Corrupt initial_store) [9; 9; 9] "Dune" = Ok l ∧
       (loaded (load_model_components Corrupt initial_store) = true ∨
        (length l = 5 ∧ NoDup l ∧ l ⊆+ mock_titles)).
Proof.
  apply (fallback_store_answers Corrupt initial_store initial_store UnpicklingError
           empty_frame [9; 9; 9] "Dune"); reflexivity.
Defined.

(** ** The routes *)

Lemma record_get_to_dict (c : string) (cols : list string) (r : RowRecord) :
  c ∈ cols → record_get c (map (λ c', (c', record_get c' r)) cols) = record_get c r.
Proof.
  induction cols as [|c0 cols IH]; intros Hin; [by apply elem_of_nil in Hin|].
  cbn [map record_get]. destruct (String.eqb c c0) eqn:Hc.
  - by apply String.eqb_eq in Hc as ->.
  - apply IH. apply elem_of_cons in Hin as [->|Hin]; [|done].
    by rewrite String.eqb_refl in Hc.
Qed.

(** X15. For a popularity table with distinct column names, the
    popular-books route hands [jsonify] at most 50 records, one per row
    of the table from the top; the keys of every record are the table's
    columns, each once, and for every column the records hold its first
    50 values. *)
Theorem popular_books_records (st : Store) (f : DataFrame) :
  popular_df st = VFrame f →
  NoDup (df_columns f) →
  ∃ records,
    get_popular_books_api st =
      Ok {| status := 200; body := RecordList "popular_books" records |} ∧
    length records = Nat.min 50 (frame_len f) ∧
    Forall (λ r : RowRecord, NoDup r.*1 ∧ ∀ c, c ∈ r.*1 ↔ c ∈ df_columns f) records ∧
    ∀ c, c ∈ df_columns f → map (record_get c) records = take 50 (column_values c f).
Proof.
  intros Hpop Hcols. unfold get_popular_books_api. rewrite Hpop.
  eexists. split; [reflexivity|]. unfold to_dict_records, head, column_values, frame_len.
  cbn [df_columns df_rows].
  assert (∀ c, c ∈ unique_by String.eqb [] (df_columns f) ↔ c ∈ df_columns f) as Hkeys.
  { intros c. rewrite (unique_by_elem_of String.eqb String.eqb_eq).
    split; [by intros [? _] | intros ?; split; [done | apply not_elem_of_nil]]. }
  split_and!.
  - by rewrite length_map, length_take.
  - apply Forall_forall. intros r [row [-> _]]%list_elem_of_fmap.
    assert ((map (λ c, (c, record_get c row.2)) (unique_by String.eqb [] (df_columns f))).*1
            = unique_by String.eqb [] (df_columns f)) as ->.
    { rewrite <- list_fmap_compose. apply list_fmap_id. }
    split; [apply unique_by_NoDup, String.eqb_eq | apply Hkeys].
  - intros c Hc. rewrite <- fmap_take. rewrite map_map. apply map_ext.
    intros row. apply record_get_to_dict. by apply Hkeys.
Qed.

Lemma popular_books_records_witness :
  ∃ records,
    get_popular_books_api (load_model_components NoFile initial_store) =
      Ok {| status := 200; body := RecordList "popular_books" records |} ∧
    length records = Nat.min 50 (frame_len mock_popular_df) ∧
    Forall (λ r : RowRecord,
              NoDup r.*1 ∧ ∀ c, c ∈ r.*1 ↔ c ∈ df_columns mock_popular_df) records ∧
    ∀ c, c ∈ df_columns mock_popular_df →
         map (record_get c) records = take 50 (column_values c mock_popular_df).
Proof.
  apply (popular_books_records (load_model_components NoFile initial_store) mock_popular_df).
  - reflexivity.
  - refine (bool_decide_unpack _ _). vm_compute. exact I.
Defined.

(** In what follows [other] is the behaviour of [recommend] on a
    [book_name] that is not a string. *)

Lemma object_with_key_truthy (fields : gmap string Json) (key : string) (v : Json) :
  fields !! key = Some v → truthy (JObj fields) = true.
Proof.
  intros Hkey. cbn [truthy]. apply negb_true_iff, Nat.eqb_neq.
  intros Hsize%map_size_empty_inv. by rewrite Hsize, lookup_empty in Hkey.
Qed.

(** The recommendations route on an object whose "book_name" is a string. *)
Lemma get_recommendation_api_string
    (other : Store → list nat → Json → result (list Cell))
    (st : Store) (rng : list nat) (fields : gmap string Json) (s : string) :
  fields !! "book_name" = Some (JStr s) →
  get_recommendation_api other st rng (JObj fields) =
    match recommend st rng s with
    | Ok l => Ok {| status := 200; body := TitleList "recommendations" l |}
    | Raise e => Raise e
    end.
Proof.
  intros Hkey. unfold get_recommendation_api.
  rewrite (object_with_key_truthy fields "book_name" (JStr s) Hkey).
  cbn [negb contains getitem_key mbind result_mbind result_bind]. rewrite Hkey.
  rewrite bool_decide_eq_true_2 by eauto.
  cbn [negb mbind result_mbind result_bind]. by destruct (recommend st rng s).
Qed.

(** X16. The recommendations route answers 400, with the message that
    "book_name" is missing, exactly when the body is falsy ([null],
    [false], 0, an empty string, array or object) or is an object, an
    array or a string in which "book_name" is not found as a key, an
    element or a substring. *)
Theorem recommendation_request_rejected
    (other : Store → list nat → Json → result (list Cell))
    (st : Store) (rng : list nat) (data : Json) :
  (∃ b, get_recommendation_api other st rng data =
          Ok {| status := 400; body := b |}) ↔
  truthy data = false ∨ contains "book_name" data = Ok false.
Proof.
  unfold get_recommendation_api. split.
  - intros [b Hb]. destruct (truthy data); [right|by left].
    cbn [negb] in Hb. destruct (contains "book_name" data) as [[]|]; try done.
    cbn [negb mbind result_mbind result_bind] in Hb.
    destruct (getitem_key data "book_name") as [v|]; [|done].
    cbn [mbind result_mbind result_bind] in Hb.
    by destruct (match v with JStr s => _ | _ => _ end).
  - intros [->| Hc]; [by eexists|].
    destruct (truthy data); [|by eexists]. rewrite Hc. by eexists.
Qed.

(** X17. A truthy body that is not an object never reaches [recommend]: a
    number or [true], and an array or a string in which "book_name" is
    found, make the view raise [TypeError]. *)
Theorem recommendation_request_type_error
    (other : Store → list nat → Json → result (list Cell))
    (st : Store) (rng : list nat) (data : Json) :
  truthy data = true →
  (∀ fields, data ≠ JObj fields) →
  contains "book_name" data ≠ Ok false →
  get_recommendation_api other st rng data = Raise TypeError.
Proof.
  intros Htruthy Hobj Hc. unfold get_recommendation_api. rewrite Htruthy. cbn [negb].
  destruct data as [|b|q|s|items|fields]; try done.
  - cbn [contains] in *. destruct (is_substring "book_name" s); done.
  - cbn [contains] in *. destruct (existsb (is_str "book_name") items); done.
  - by destruct (Hobj fields).
Qed.

Lemma recommendation_request_type_error_witness :
  get_recommendation_api (λ _ _ _, Raise TypeError) initial_store [] (JArr [JStr "book_name"]) =
    Raise TypeError.
Proof.
  apply (recommendation_request_type_error (λ _ _ _, Raise TypeError) initial_store [] (JArr [JStr "book_name"])).
  - reflexivity.
  - intros fields. discriminate.
  - discriminate.
Defined.

(** X18. Whatever the store held before and whatever the first item is, a
    request served over a pickled sequence with a non-empty pivot and a
    matrix in third place gets status 200 from the recommendations route
    for every object body whose "book_name" is a string, with a list of at
    most five entries. *)
Theorem serve_recommendations_loaded
    (other : Store → list nat → Json → result (list Cell))
    (a c : PyVal) (df : DataFrame) (rest : list PyVal) (st : Store) (rng : list nat)
    (fields : gmap string Json) (s : string) :
  frame_empty df = false →
  c ≠ VNone →
  fields !! "book_name" = Some (JStr s) →
  let file := Unpickled (PSeq (a :: VFrame df :: c :: rest)) in
  ∃ l,
    serve other file rng (PostRecommendations (JObj fields)) st =
      ({| popular_df := a; pt := VFrame df; scores := c; all_books := frame_index df |},
       Ok {| status := 200; body := TitleList "recommendations" l |}) ∧
    length l ≤ 5.
Proof.
  intros Hdf Hc Hkey. cbn zeta. unfold serve.
  rewrite (get_recommendation_api_string _ _ _ _ _ Hkey), load_unpickled.
  unfold settle, derive_all_books.
  cbn [classify pt popular_df set_scores set_pt set_popular_df attr_empty attr_index
       mbind result_mbind result_bind].
  rewrite Hdf. cbn [negb]. unfold set_all_books, set_scores, set_pt, set_popular_df.
  cbn [pt popular_df scores all_books].
  set (r := {| popular_df := a; pt := VFrame df; scores := c; all_books := frame_index df |}).
  assert (loaded r = true) as Hloaded.
  { unfold loaded, r. cbn [pt scores]. rewrite Hdf. by destruct c. }
  rewrite recommend_loaded_unfold by done.
  destruct (recommend_try r s) as [l|e] eqn:Htry.
  - exists l. split; [done|]. unfold recommend_try in Htry.
    cbn [r pt attr_index mbind result_mbind result_bind] in Htry.
    destruct (get_loc (frame_index df) s) as [k|]; [|done].
    cbn [mbind result_mbind result_bind] in Htry.
    destruct (getitem_row (scores r) k) as [row|]; [|done].
    cbn [mbind result_mbind result_bind] in Htry.
    apply titles_of_inv, Forall2_length in Htry. rewrite Htry, ranked_length. lia.
  - destruct e; eexists; (split; [reflexivity|cbn; lia]).
Qed.

Lemma serve_recommendations_loaded_witness :
  ∃ l,
    serve (λ _ _ _, Raise TypeError) (Unpickled tied_blob) [] 
      (PostRecommendations (JObj (<["book_name" := JStr "C"]> ∅))) initial_store =
      ({| popular_df := VFrame example_popular;
          pt := VFrame (pivot_of_titles ["A"; "B"; "C"]);
          scores := VArray tied_scores;
          all_books := frame_index (pivot_of_titles ["A"; "B"; "C"]) |},
       Ok {| status := 200; body := TitleList "recommendations" l |}) ∧
    length l ≤ 5.
Proof.
  apply (serve_recommendations_loaded (λ _ _ _, Raise TypeError) (VFrame example_popular) (VArray tied_scores)
           (pivot_of_titles ["A"; "B"; "C"]) [] initial_store []
           (<["book_name" := JStr "C"]> ∅) "C").
  - reflexivity.
  - discriminate.
  - reflexivity.
Defined.

(** X19. When the file cannot be read and the pivot in the store is an empty
    DataFrame, all three routes answer from the synthetic data: the 50
    synthetic records, the 50 synthetic titles, and for every object body
    whose "book_name" is a string five different synthetic titles. *)
Theorem serve_fallback
    (other : Store → list nat → Json → result (list Cell))
    (f : FileRead) (e : exn) (st : Store) (p : DataFrame) (rng : list nat)
    (fields : gmap string Json) (s : string) :
  unpickle f = Raise e →
  pt st = VFrame p →
  frame_empty p = true →
  fields !! "book_name" = Some (JStr s) →
  (serve other f rng GetPopularBooks st).2 =
    Ok {| status := 200;
          body := RecordList "popular_books" (map mock_record mock_range) |} ∧
  (serve other f rng GetAllBooks st).2 =
    Ok {| status := 200; body := TitleList "all_book_titles" mock_titles |} ∧
  ∃ l,
    (serve other f rng (PostRecommendations (JObj fields)) st).2 =
      Ok {| status := 200; body := TitleList "recommendations" l |} ∧
    length l = 5 ∧ NoDup l ∧ l ⊆+ mock_titles.
Proof.
  intros Hf Hpt Hp Hkey. unfold serve. cbn [snd].
  rewrite (load_unreadable f st e Hf). split_and!; [done|done|].
  rewrite (get_recommendation_api_string _ _ _ _ _ Hkey).
  unfold recommend, mock_fallback.
  cbn [pt scores popular_df set_all_books set_popular_df]. rewrite Hpt.
  cbn [attr_empty mbind result_mbind result_bind]. rewrite Hp. cbn [orb].
  change (attr_empty (VFrame mock_popular_df)) with (@Ok bool false).
  cbn [mbind result_mbind result_bind]. rewrite mock_getitem_title.
  change (py_len (VFrame mock_popular_df)) with (@Ok nat 50).
  cbn [mbind result_mbind result_bind]. eexists. split; [reflexivity|]. split_and!.
  - by rewrite draw_length.
  - apply draw_NoDup. refine (bool_decide_unpack _ _). vm_compute. exact I.
  - apply draw_submseteq.
Qed.

Lemma serve_fallback_witness :
  (serve (λ _ _ _, Raise TypeError) NoFile [2; 7] GetPopularBooks initial_store).2 =
    Ok {| status := 200;
          body := RecordList "popular_books" (map mock_record mock_range) |} ∧
  (serve (λ _ _ _, Raise TypeError) NoFile [2; 7] GetAllBooks initial_store).2 =
    Ok {| status := 200; body := TitleList "all_book_titles" mock_titles |} ∧
  ∃ l,
    (serve (λ _ _ _, Raise TypeError) NoFile [2; 7]
       (PostRecommendations (JObj (<["book_name" := JStr "Dune"]> ∅))) initial_store).2 =
      Ok {| status := 200; body := TitleList "recommendations" l |} ∧
    length l = 5 ∧ NoDup l ∧ l ⊆+ mock_titles.
Proof.
  apply (serve_fallback (λ _ _ _, Raise TypeError) NoFile FileNotFoundError initial_store empty_frame [2; 7]
           (<["book_name" := JStr "Dune"]> ∅) "Dune"); reflexivity.
Defined.
